(** * s3verify: the PutObject test (put-object.go)

    A shallow embedding of [newPutObjectReq], [putObjectVerify] and its three
    sub-checks, and of the two test drivers [mainPutObjectPrepared] and
    [mainPutObjectUnPrepared], followed by the properties of the PutObject
    specification.

    Go values are embedded as follows: [[]byte] is [list byte], [string] is
    [string] (a Go string is a sequence of bytes, as a Rocq string is a
    sequence of 8-bit characters), [int] and [int64] are [Z] (no arithmetic of
    this file can leave the 64-bit range: the only sums are the loop counter,
    below 102, and the length of a slice), a pointer that may be [nil] is an
    [option], an [error] is an [option Error] with [None] for [nil], and a
    run-time panic is an explicit outcome of the call. *)

From Stdlib Require Import ZArith Lia Strings.Byte Strings.Ascii.
From stdpp Require Import base numbers list strings gmap pretty.

Local Open Scope Z_scope.

Abbreviation bytes := (list byte).

(** [[]byte(s)] and [string(b)]: the same bytes, seen as the other type. *)
Definition bytes_of_string (s : string) : bytes := String.list_byte_of_string s.
Definition string_of_bytes (b : bytes) : string := String.string_of_list_byte b.

Definition byte_val (b : byte) : Z := Z.of_N (Byte.to_N b).
Definition byte_of_Z (z : Z) : byte :=
  default x00%byte (Byte.of_N (Z.to_N (Z.land z 255))).

(** [s[i]] for an index known to be in range; used for constant tables only. *)
Definition table_char (table : string) (i : Z) : Ascii.ascii :=
  default "?"%char (String.get (Z.to_nat i) table).

(** ** encoding/hex *)
Module hex.

Definition hextable : string := "0123456789abcdef".

(** [hex.EncodeToString]: two lower-case digits per byte, high nibble first. *)
Fixpoint EncodeToString (src : bytes) : string :=
  match src with
  | [] => EmptyString
  | v :: rest =>
      String (table_char hextable (Z.shiftr (byte_val v) 4))
        (String (table_char hextable (Z.land (byte_val v) 15))
           (EncodeToString rest))
  end.

End hex.

(** ** encoding/base64 *)
Module base64.

Definition encodeStd : string :=
  "ABCDEFGHIJKLMNOPQRSTUVWXYZabcdefghijklmnopqrstuvwxyz0123456789+/".

Definition StdPadding : Ascii.ascii := "="%char.

Definition enc (val : Z) (shift : Z) : Ascii.ascii :=
  table_char encodeStd (Z.land (Z.shiftr val shift) 63).

(** [base64.StdEncoding.EncodeToString]: every group of three bytes becomes
    four characters; a final group of one or two bytes is padded with [=]. *)
Fixpoint EncodeToString (src : bytes) : string :=
  match src with
  | [] => EmptyString
  | [a] =>
      let val := Z.shiftl (byte_val a) 16 in
      String (enc val 18) (String (enc val 12)
        (String StdPadding (String StdPadding EmptyString)))
  | [a; b] =>
      let val := Z.lor (Z.shiftl (byte_val a) 16) (Z.shiftl (byte_val b) 8) in
      String (enc val 18) (String (enc val 12)
        (String (enc val 6) (String StdPadding EmptyString)))
  | a :: b :: c :: rest =>
      let val := Z.lor (Z.lor (Z.shiftl (byte_val a) 16)
                              (Z.shiftl (byte_val b) 8)) (byte_val c) in
      String (enc val 18) (String (enc val 12)
        (String (enc val 6) (String (enc val 0) (EncodeToString rest))))
  end.

End base64.

(** ** 32-bit words shared by the two digests *)
Module word32.

Definition wrap (x : Z) : Z := Z.land x 4294967295.
Definition add (x y : Z) : Z := wrap (x + y).
Definition not (x : Z) : Z := Z.lxor x 4294967295.
Definition rotl (x n : Z) : Z :=
  wrap (Z.lor (Z.shiftl x n) (Z.shiftr x (32 - n))).
Definition rotr (x n : Z) : Z := rotl x (32 - n).

(** Cut a padded message into blocks of [n] bytes ([fuel] bounds the number
    of blocks; callers pass the length of the message). *)
Fixpoint chunks (fuel : nat) (n : nat) (l : list Z) : list (list Z) :=
  match fuel with
  | O => []
  | S fuel' =>
      match l with
      | [] => []
      | _ => take n l :: chunks fuel' n (drop n l)
      end
  end.

(** The padding both digests share: a [0x80] byte, then zero bytes up to 56
    modulo 64; the eight length bytes follow in the digest's own byte order. *)
Definition pad_zeros (len : nat) : list Z :=
  replicate (Z.to_nat ((55 - Z.of_nat len) mod 64)) 0.

Definition nth_word (l : list Z) (i : Z) : Z := default 0 (l !! Z.to_nat i).

End word32.

(** ** crypto/md5 *)
Module md5.
Import word32.

Definition shifts : list Z :=
  [7; 12; 17; 22; 7; 12; 17; 22; 7; 12; 17; 22; 7; 12; 17; 22;
   5; 9; 14; 20; 5; 9; 14; 20; 5; 9; 14; 20; 5; 9; 14; 20;
   4; 11; 16; 23; 4; 11; 16; 23; 4; 11; 16; 23; 4; 11; 16; 23;
   6; 10; 15; 21; 6; 10; 15; 21; 6; 10; 15; 21; 6; 10; 15; 21].

Definition sines : list Z :=
  [0xd76aa478; 0xe8c7b756; 0x242070db; 0xc1bdceee; 0xf57c0faf; 0x4787c62a;
   0xa8304613; 0xfd469501; 0x698098d8; 0x8b44f7af; 0xffff5bb1; 0x895cd7be;
   0x6b901122; 0xfd987193; 0xa679438e; 0x49b40821; 0xf61e2562; 0xc040b340;
   0x265e5a51; 0xe9b6c7aa; 0xd62f105d; 0x02441453; 0xd8a1e681; 0xe7d3fbc8;
   0x21e1cde6; 0xc33707d6; 0xf4d50d87; 0x455a14ed; 0xa9e3e905; 0xfcefa3f8;
   0x676f02d9; 0x8d2a4c8a; 0xfffa3942; 0x8771f681; 0x6d9d6122; 0xfde5380c;
   0xa4beea44; 0x4bdecfa9; 0xf6bb4b60; 0xbebfbc70; 0x289b7ec6; 0xeaa127fa;
   0xd4ef3085; 0x04881d05; 0xd9d4d039; 0xe6db99e5; 0x1fa27cf8; 0xc4ac5665;
   0xf4292244; 0x432aff97; 0xab9423a7; 0xfc93a039; 0x655b59c3; 0x8f0ccc92;
   0xffeff47d; 0x85845dd1; 0x6fa87e4f; 0xfe2ce6e0; 0xa3014314; 0x4e0811a1;
   0xf7537e82; 0xbd3af235; 0x2ad7d2bb; 0xeb86d391].

Definition le_bytes (count : nat) (x : Z) : list Z :=
  map (fun k => Z.land (Z.shiftr x (8 * Z.of_nat k)) 255) (seq 0 count).

Fixpoint le_word (bs : list Z) : Z :=
  match bs with
  | [] => 0
  | b :: rest => Z.lor b (Z.shiftl (le_word rest) 8)
  end.

Definition padded (msg : bytes) : list Z :=
  map byte_val msg ++ [128] ++ pad_zeros (length msg)
    ++ le_bytes 8 (8 * Z.of_nat (length msg)).

Record state := State { sa : Z; sb : Z; sc : Z; sd : Z }.

Definition init : state :=
  State 0x67452301 0xefcdab89 0x98badcfe 0x10325476.

Definition round (m : list Z) (st : state) (i : Z) : state :=
  let '(State a b c d) := st in
  let '(f, g) :=
    if i <? 16 then (Z.lor (Z.land b c) (Z.land (not b) d), i)
    else if i <? 32 then (Z.lor (Z.land d b) (Z.land (not d) c), (5 * i + 1) mod 16)
    else if i <? 48 then (Z.lxor (Z.lxor b c) d, (3 * i + 5) mod 16)
    else (Z.lxor c (Z.lor b (not d)), (7 * i) mod 16) in
  let f' := add (add (add f a) (nth_word sines i)) (nth_word m g) in
  State d (add b (rotl f' (nth_word shifts i))) b c.

Definition block (st : state) (blk : list Z) : state :=
  let m := map le_word (chunks 16 4 blk) in
  let '(State a b c d) := foldl (round m) st (map Z.of_nat (seq 0 64)) in
  State (add (sa st) a) (add (sb st) b) (add (sc st) c) (add (sd st) d).

(** [md5.Sum]: the 16 bytes of the MD5 digest. *)
Definition Sum (msg : bytes) : bytes :=
  let p := padded msg in
  let '(State a b c d) := foldl block init (chunks (length p) 64 p) in
  map byte_of_Z (le_bytes 4 a ++ le_bytes 4 b ++ le_bytes 4 c ++ le_bytes 4 d).

End md5.

(** ** crypto/sha256 *)
Module sha256.
Import word32.

Definition cube_roots : list Z :=
  [1116352408; 1899447441; 3049323471; 3921009573; 961987163; 1508970993;
   2453635748; 2870763221; 3624381080; 310598401; 607225278; 1426881987;
   1925078388; 2162078206; 2614888103; 3248222580; 3835390401; 4022224774;
   264347078; 604807628; 770255983; 1249150122; 1555081692; 1996064986;
   2554220882; 2821834349; 2952996808; 3210313671; 3336571891; 3584528711;
   113926993; 338241895; 666307205; 773529912; 1294757372; 1396182291;
   1695183700; 1986661051; 2177026350; 2456956037; 2730485921; 2820302411;
   3259730800; 3345764771; 3516065817; 3600352804; 4094571909; 275423344;
   430227734; 506948616; 659060556; 883997877; 958139571; 1322822218;
   1537002063; 1747873779; 1955562222; 2024104815; 2227730452; 2361852424;
   2428436474; 2756734187; 3204031479; 3329325298].

Definition square_roots : list Z :=
  [1779033703; 3144134277; 1013904242; 2773480762;
   1359893119; 2600822924; 528734635; 1541459225].

Definition be_bytes (count : nat) (x : Z) : list Z :=
  map (fun k => Z.land (Z.shiftr x (8 * Z.of_nat (count - 1 - k))) 255)
      (seq 0 count).

Definition be_word (bs : list Z) : Z :=
  foldl (fun acc b => Z.lor (Z.shiftl acc 8) b) 0 bs.

Definition padded (msg : bytes) : list Z :=
  map byte_val msg ++ [128] ++ pad_zeros (length msg)
    ++ be_bytes 8 (8 * Z.of_nat (length msg)).

Definition ssig0 (x : Z) : Z :=
  Z.lxor (Z.lxor (rotr x 7) (rotr x 18)) (Z.shiftr x 3).
Definition ssig1 (x : Z) : Z :=
  Z.lxor (Z.lxor (rotr x 17) (rotr x 19)) (Z.shiftr x 10).
Definition bsig0 (x : Z) : Z :=
  Z.lxor (Z.lxor (rotr x 2) (rotr x 13)) (rotr x 22).
Definition bsig1 (x : Z) : Z :=
  Z.lxor (Z.lxor (rotr x 6) (rotr x 11)) (rotr x 25).

(** The message schedule: sixteen words of the block, then 48 derived ones. *)
Definition extend (w : list Z) (t : Z) : list Z :=
  w ++ [add (add (add (ssig1 (nth_word w (t - 2))) (nth_word w (t - 7)))
                 (ssig0 (nth_word w (t - 15)))) (nth_word w (t - 16))].

Definition schedule (blk : list Z) : list Z :=
  foldl extend (map be_word (chunks 16 4 blk)) (map Z.of_nat (seq 16 48)).

Definition round (w : list Z) (h : list Z) (t : Z) : list Z :=
  match h with
  | [a; b; c; d; e; f; g; hh] =>
      let ch := Z.lxor (Z.land e f) (Z.land (not e) g) in
      let maj := Z.lxor (Z.lxor (Z.land a b) (Z.land a c)) (Z.land b c) in
      let t1 := add (add (add (add hh (bsig1 e)) ch) (nth_word cube_roots t))
                    (nth_word w t) in
      let t2 := add (bsig0 a) maj in
      [add t1 t2; a; b; c; add d t1; e; f; g]
  | _ => h
  end.

Definition block (h : list Z) (blk : list Z) : list Z :=
  let w := schedule blk in
  zip_with add h (foldl (round w) h (map Z.of_nat (seq 0 64))).

(** [sha256.Sum256]: the 32 bytes of the SHA-256 digest. *)
Definition Sum (msg : bytes) : bytes :=
  let p := padded msg in
  map byte_of_Z
    (concat (map (be_bytes 4) (foldl block square_roots (chunks (length p) 64 p)))).

End sha256.

(** ** The Go run time: errors, panics, formatting *)

(** An [error] value, identified by the message its [Error()] method gives. *)
Inductive Error := errorString (msg : string).

Definition Error_msg (e : Error) : string := let 'errorString msg := e in msg.

(** How a call ends: it returns, or it panics and unwinds its caller. *)
Inductive outcome (A : Type) :=
  | Returned (a : A)
  | Panicked (msg : string).
Arguments Returned {A} a.
Arguments Panicked {A} msg.

Definition nil_dereference : string :=
  "runtime error: invalid memory address or nil pointer dereference".
Definition index_out_of_range : string :=
  "runtime error: index out of range".

Module strconv.
(** [strconv.Itoa]: the decimal digits of [i], after a minus sign when
    [i] is negative. *)
Definition Itoa (i : Z) : string := pretty i.
End strconv.

Module fmt.
(** The verb [%v] on an [int] and on a [string]. *)
Definition v_int (i : Z) : string := strconv.Itoa i.
Definition v_string (s : string) : string := s.
(** The verb [%d], and [%02d]: at least two characters, padded with a zero. *)
Definition d (i : Z) : string := strconv.Itoa i.
Definition d02 (i : Z) : string :=
  if bool_decide (0 <= i < 10) then "0" +:+ strconv.Itoa i else strconv.Itoa i.
(** [fmt.Errorf] on an already formatted message. *)
Definition Errorf (msg : string) : Error := errorString msg.
End fmt.

(** ** io.Reader, as far as this file uses it

    Both callers of a reader here drain it: [io.Copy] inside [computeHash]
    and [ioutil.ReadAll] in the body check. [ReadAll r] gives the bytes the
    reader yields from its current position up to the end of the stream or
    the first read error, that error ([None] at a clean end of stream), and
    the reader as the reads leave it. *)
Class ioReader (R : Type) := ReadAll : R -> R * (bytes * option Error).

Module ioutil.
(** [ioutil.ReadAll(r)] on an interface value that may be [nil]: calling
    [Read] through a [nil] interface panics. *)
Definition ReadAll `{ioReader R} (r : option R)
    : option R * outcome (bytes * option Error) :=
  match r with
  | None => (None, Panicked nil_dereference)
  | Some rd => let '(rd', res) := ReadAll rd in (Some rd', Returned res)
  end.
End ioutil.

(** ** bytes.Reader *)
Module Reader.

(** The slice read from and the current reading index into it. *)
Record t := mk { s : bytes; i : Z }.

Definition NewReader (b : bytes) : t := mk b 0.

(** Reading to the end yields [s[i:]] and leaves the index at [len(s)]; a
    [bytes.Reader] has no read error. *)
Definition drain (r : t) : t * (bytes * option Error) :=
  (mk (s r) (Z.of_nat (length (s r))), (drop (Z.to_nat (i r)) (s r), None)).

(** [Seek(offset, whence)], returning the new index. *)
Definition Seek (offset whence : Z) (r : t) : t * (Z * option Error) :=
  let abs :=
    if whence =? 0 then Some offset
    else if whence =? 1 then Some (i r + offset)
    else if whence =? 2 then Some (Z.of_nat (length (s r)) + offset)
    else None in
  match abs with
  | None => (r, (0, Some (errorString "bytes.Reader.Seek: invalid whence")))
  | Some a =>
      if a <? 0
      then (r, (0, Some (errorString "bytes.Reader.Seek: negative position")))
      else (mk (s r) a, (a, None))
  end.

End Reader.

#[export] Instance Reader_ioReader : ioReader Reader.t := Reader.drain.

(** ** net/http *)
Module http.

Definition StatusOK : Z := 200.

(** [http.Header] is [map[string][]string], keyed by canonical names. *)
Abbreviation Header := (gmap string (list string)).

Definition is_lower (c : ascii) : bool :=
  bool_decide (97 <= Z.of_N (N_of_ascii c) <= 122).
Definition is_upper (c : ascii) : bool :=
  bool_decide (65 <= Z.of_N (N_of_ascii c) <= 90).
Definition is_digit (c : ascii) : bool :=
  bool_decide (48 <= Z.of_N (N_of_ascii c) <= 57).
Definition to_upper (c : ascii) : ascii :=
  if is_lower c then ascii_of_N (N_of_ascii c - 32) else c.
Definition to_lower (c : ascii) : ascii :=
  if is_upper c then ascii_of_N (N_of_ascii c + 32) else c.

Fixpoint mem_char (c : ascii) (cs : string) : bool :=
  match cs with
  | EmptyString => false
  | String c' rest => bool_decide (c = c') || mem_char c rest
  end.

(** The bytes of an HTTP token. *)
Definition validHeaderFieldByte (c : ascii) : bool :=
  is_lower c || is_upper c || is_digit c || mem_char c "!#$%&'*+-.^_`|~".

Fixpoint all_valid (key : string) : bool :=
  match key with
  | EmptyString => true
  | String c rest => validHeaderFieldByte c && all_valid rest
  end.

(** Upper case for the first letter and for a letter after a dash, lower
    case for the others. *)
Fixpoint canonical (upper : bool) (key : string) : string :=
  match key with
  | EmptyString => EmptyString
  | String c rest =>
      let c' := if upper then to_upper c else to_lower c in
      String c' (canonical (bool_decide (c' = "-"%char)) rest)
  end.

(** [textproto.CanonicalMIMEHeaderKey]: a key that is not a token is left
    as it is. *)
Definition CanonicalMIMEHeaderKey (key : string) : string :=
  if all_valid key then canonical true key else key.

(** [Header.Set]: the value replaces whatever the key had. *)
Definition Set_ (key value : string) (h : Header) : Header :=
  <[CanonicalMIMEHeaderKey key := [value]]> h.

(** [Header.Get]: the first value of the key, the empty string without one. *)
Definition Get (key : string) (h : Header) : string :=
  match h !! CanonicalMIMEHeaderKey key with
  | Some (value :: _) => value
  | _ => ""
  end.

End http.

(** A response body: the bytes the server has still to deliver, the error
    (if any) that ends the stream after them, and how many times the stream
    has been read to its end. *)
Module Body.

Record t := mk { pending : bytes; failure : option Error; drained : nat }.

Definition drain (b : t) : t * (bytes * option Error) :=
  (mk [] (failure b) (S (drained b)), (pending b, failure b)).

End Body.

#[export] Instance Body_ioReader : ioReader Body.t := Body.drain.

(** The fields of [http.Response] that the checks read. [Body] is an
    interface value and may be [nil]. *)
Record Response := mkResponse {
  StatusCode : Z;
  Header : http.Header;
  Body : option Body.t
}.

(** ** The types of s3verify *)

(** Modelled from the spec: the declaration of [Request] is not in
    put-object.go. These are the fields [newPutObjectReq] assigns; the spec
    has them as target bucket, target object, headers, content length and
    body stream. [contentBody] is an interface value, [nil] in [Request{}]. *)
Record Request := mkRequest {
  bucketName : string;
  objectName : string;
  customHeader : http.Header;
  contentLength : Z;
  contentBody : option Reader.t
}.

(** The zero value [Request{}]. *)
Definition Request_zero : Request := mkRequest "" "" ∅ 0 None.

(** Modelled from the spec: the declaration of [ObjectInfo] is missing; the
    spec's descriptor has a key and a body. *)
Record ObjectInfo := mkObjectInfo { Key : string; Body_ : bytes }.

(** Modelled from the spec: the declaration of [BucketInfo] is missing; the
    drivers read its [Name]. *)
Record BucketInfo := mkBucketInfo { Name : string }.

(** ** The collaborators

    Everything put-object.go calls and does not define. [Outside] is the
    state of what lies beyond the process: the server and the network behind
    [execRequest], and the clock that seeds [randString]. *)
Class Collaborators := {
  ServerConfig : Type;
  Outside : Type;
  appUserAgent : string;
  globalTotalNumTest : Z;
  verifyStandardHeaders : http.Header -> option Error;
  execRequest : ServerConfig -> string -> Request -> Outside ->
                Outside * (option Response * option Error);
  time_Now_UnixNano : Outside -> Outside * Z;
  randString : Z -> Z -> string -> string
}.

(** Modelled from the spec: [computeHash] is not in put-object.go. The spec's
    Hasher computes the checksum digest and the content digest over the same
    bytes, in one pass over the payload, counts the bytes it read, and leaves
    the payload readable again by resetting its cursor; it fails only when
    the source cannot be read to its end. The reader is passed by pointer:
    the caller goes on with the reader as [computeHash] leaves it. *)
Definition computeHash (reader : Reader.t)
    : Reader.t * (bytes * bytes * Z * option Error) :=
  let '(reader1, (data, err)) := ReadAll reader in
  match err with
  | Some e => (reader1, ([], [], 0, Some e))
  | None =>
      let '(reader2, (_, err)) := Reader.Seek 0 0 reader1 in
      match err with
      | Some e => (reader2, ([], [], 0, Some e))
      | None =>
          (reader2,
           (md5.Sum data, sha256.Sum data, Z.of_nat (length data), None))
      end
  end.

Section PutObject.
Context `{Collaborators}.

(** ** The process state *)

(** What the run does to its collaborators, in the order it does it. *)
Inductive Event :=
  | ScanBar (message : string)
  | PrintMessage (message : string) (err : option Error)
  | ExecRequest (method : string) (req : Request)
  | CloseResponse (res : option Response).

(** The package-level variables, the outside world, and the calls made so
    far. [s3verifyObjects] holds pointers to descriptors that nothing changes
    once they are made; it is a list of the descriptors themselves. *)
Record World := mkWorld {
  s3verifyObjects : list ObjectInfo;
  preparedObjects : list ObjectInfo;
  copyObjects : list ObjectInfo;
  s3verifyBuckets : list BucketInfo;
  outside : Outside;
  trace : list Event
}.

Definition log (e : Event) (w : World) : World :=
  mkWorld (s3verifyObjects w) (preparedObjects w) (copyObjects w)
          (s3verifyBuckets w) (outside w) (trace w ++ [e]).

(** Modelled from the spec: [scanBar] is not in put-object.go; it is the
    progress display, with no result the drivers use. The call is recorded. *)
Definition scanBar (message : string) : World -> World :=
  log (ScanBar message).

(** Modelled from the spec: [printMessage] is not in put-object.go; it is the
    spec's reporter, which receives the status line and the error of the
    step ([nil] for a passed test) and returns nothing. The call is
    recorded. *)
Definition printMessage (message : string) (err : option Error)
    : World -> World :=
  log (PrintMessage message err).

(** Modelled from the spec: [closeResponse] is not in put-object.go; it
    releases the response once the step is over. The call is recorded with
    the response as the step left it. *)
Definition closeResponse (res : option Response) : World -> World :=
  log (CloseResponse res).

(** [s3verifyObjects = append(s3verifyObjects, object)] *)
Definition appendObject (object : ObjectInfo) (w : World) : World :=
  mkWorld (s3verifyObjects w ++ [object]) (preparedObjects w) (copyObjects w)
          (s3verifyBuckets w) (outside w) (trace w).

Definition with_outside (o : Outside) (w : World) : World :=
  mkWorld (s3verifyObjects w) (preparedObjects w) (copyObjects w)
          (s3verifyBuckets w) o (trace w).

(** [config.execRequest(method, req)], recorded in the trace. *)
Definition doExecRequest (config : ServerConfig) (method : string)
    (req : Request) (w : World) : World * (option Response * option Error) :=
  let '(o, r) := execRequest config method req (outside w) in
  (log (ExecRequest method req) (with_outside o w), r).

(** [randString(n, rand.NewSource(time.Now().UnixNano()), prefix)] *)
Definition freshString (n : Z) (prefix : string) (w : World)
    : World * string :=
  let '(o, seed) := time_Now_UnixNano (outside w) in
  (with_outside o w, randString n seed prefix).

(** ** newPutObjectReq *)
Definition newPutObjectReq (bucketName objectName : string)
    (objectData : bytes) : Request * option Error :=
  let reader := Reader.NewReader objectData in
  let '(reader, (md5Sum, sha256Sum, contentLength, err)) :=
    computeHash reader in
  match err with
  | Some e => (Request_zero, Some e)
  | None =>
      let h := http.Set_ "Content-MD5" (base64.EncodeToString md5Sum) ∅ in
      let h := http.Set_ "X-Amz-Content-Sha256"
                 (hex.EncodeToString sha256Sum) h in
      let h := http.Set_ "User-Agent" appUserAgent h in
      (mkRequest bucketName objectName h contentLength (Some reader), None)
  end.

(** ** The three sub-checks and putObjectVerify *)

Definition verifyStatusPutObject (respStatusCode expectedStatusCode : Z)
    : option Error :=
  if bool_decide (respStatusCode ≠ expectedStatusCode) then
    Some (fmt.Errorf ("Unexpected Response Status Code: wanted "
                      +:+ fmt.v_int expectedStatusCode
                      +:+ ", got " +:+ fmt.v_int respStatusCode))
  else None.

Definition verifyBodyPutObject `{ioReader R} (resBody : option R)
    : option R * outcome (option Error) :=
  match ioutil.ReadAll resBody with
  | (resBody, Panicked msg) => (resBody, Panicked msg)
  | (resBody, Returned (_, Some err)) => (resBody, Returned (Some err))
  | (resBody, Returned (body, None)) =>
      if bool_decide (body ≠ []) then
        (resBody,
         Returned (Some (fmt.Errorf
           ("Unexpected Body Recieved: expected empty body but recieved: "
            +:+ fmt.v_string (string_of_bytes body)))))
      else (resBody, Returned None)
  end.

Definition verifyHeaderPutObject (header : http.Header) : option Error :=
  match verifyStandardHeaders header with
  | Some err => Some err
  | None => None
  end.

(** [res] is a pointer: [nil] makes [res.Header] panic; otherwise the
    response is returned as the checks leave it (its body read or not). *)
Definition putObjectVerify (res : option Response) (expectedStatusCode : Z)
    : option Response * outcome (option Error) :=
  match res with
  | None => (None, Panicked nil_dereference)
  | Some r =>
      match verifyHeaderPutObject (Header r) with
      | Some err => (Some r, Returned (Some err))
      | None =>
          match verifyStatusPutObject (StatusCode r) expectedStatusCode with
          | Some err => (Some r, Returned (Some err))
          | None =>
              let '(body, out) := verifyBodyPutObject (Body r) in
              (Some (mkResponse (StatusCode r) (Header r) body), out)
          end
      end
  end.

(** ** The drivers *)

Definition testMessage (curTest : Z) : string :=
  "[" +:+ fmt.d02 curTest +:+ "/" +:+ fmt.d globalTotalNumTest
      +:+ "] PutObject:".

(** The deferred [closeResponse] calls run when the function returns or
    panics, the last deferred first; the list has the last deferred first. *)
Definition runDeferred (deferred : list (option Response)) (w : World)
    : World :=
  foldl (fun w res => closeResponse res w) w deferred.

Definition mainPutObjectPrepared (config : ServerConfig) (curTest : Z)
    (w : World) : World * outcome bool :=
  let message := testMessage curTest in
  match s3verifyBuckets w !! 0%nat with
  | None => (w, Panicked index_out_of_range)
  | Some bucket =>
      let w := scanBar message w in
      let '(w, body) := freshString 60 "" w in
      let object := mkObjectInfo "s3verify/made/put/object"
                                 (bytes_of_string body) in
      let w := scanBar message w in
      match newPutObjectReq (Name bucket) (Key object) (Body_ object) with
      | (_, Some err) => (printMessage message (Some err) w, Returned false)
      | (req, None) =>
          let w := scanBar message w in
          match doExecRequest config "PUT" req w with
          | (w, (_, Some err)) =>
              (printMessage message (Some err) w, Returned false)
          | (w, (res, None)) =>
              let w := scanBar message w in
              match putObjectVerify res http.StatusOK with
              | (res, Panicked msg) => (runDeferred [res] w, Panicked msg)
              | (res, Returned (Some err)) =>
                  (runDeferred [res] (printMessage message (Some err) w),
                   Returned false)
              | (res, Returned None) =>
                  let w := appendObject object w in
                  let w := scanBar message w in
                  let w := printMessage message None w in
                  (runDeferred [res] w, Returned true)
              end
          end
      end
  end.

(** How one pass through the body of the loop ends: at its closing brace,
    at a [return], or in a panic. *)
Inductive control :=
  | Next
  | Return (result : bool)
  | Panic (msg : string).

(** The key of the object uploaded in iteration [i]. *)
Definition unpreparedKey (i : Z) : string :=
  "s3verify/put/object/" +:+ strconv.Itoa i.

(** The body of the loop of [mainPutObjectUnPrepared] for one value of [i];
    it also gives the responses whose [closeResponse] it deferred. *)
Definition unpreparedIteration (config : ServerConfig) (message : string)
    (bucket : BucketInfo) (i : Z) (w : World)
    : World * list (option Response) * control :=
  let w := scanBar message w in
  let '(w, body) := freshString 60 "" w in
  let object := mkObjectInfo (unpreparedKey i) (bytes_of_string body) in
  match newPutObjectReq (Name bucket) (Key object) (Body_ object) with
  | (_, Some err) => (printMessage message (Some err) w, [], Return false)
  | (req, None) =>
      match doExecRequest config "PUT" req w with
      | (w, (_, Some err)) =>
          (printMessage message (Some err) w, [], Return false)
      | (w, (res, None)) =>
          match putObjectVerify res http.StatusOK with
          | (res, Panicked msg) => (w, [res], Panic msg)
          | (res, Returned (Some err)) =>
              (printMessage message (Some err) w, [res], Return false)
          | (res, Returned None) =>
              let w := appendObject object w in
              let w := scanBar message w in
              (w, [res], Next)
          end
      end
  end.

(** [for i := 0; i < 101; i++ { ... }] from the value [i] on, with [count]
    iterations left ([count] is [101 - i]); [deferred] is the stack of
    deferred calls. The loop stops at the first iteration that does not reach
    its closing brace. *)
Fixpoint unpreparedLoop (config : ServerConfig) (message : string)
    (bucket : BucketInfo) (count : nat) (i : Z)
    (deferred : list (option Response)) (w : World)
    : World * list (option Response) * control :=
  match count with
  | O => (w, deferred, Next)
  | S count' =>
      match unpreparedIteration config message bucket i w with
      | (w, d, Next) =>
          unpreparedLoop config message bucket count' (i + 1) (d ++ deferred) w
      | (w, d, ctl) => (w, d ++ deferred, ctl)
      end
  end.

(** The number of objects the unprepared test uploads. *)
Definition unpreparedObjects : nat := 101.

Definition mainPutObjectUnPrepared (config : ServerConfig) (curTest : Z)
    (w : World) : World * outcome bool :=
  let message := testMessage curTest in
  match s3verifyBuckets w !! 0%nat with
  | None => (w, Panicked index_out_of_range)
  | Some bucket =>
      let w := scanBar message w in
      match unpreparedLoop config message bucket unpreparedObjects 0 [] w with
      | (w, deferred, Next) =>
          let w := scanBar message w in
          let w := printMessage message None w in
          (runDeferred deferred w, Returned true)
      | (w, deferred, Return result) =>
          (runDeferred deferred w, Returned result)
      | (w, deferred, Panic msg) => (runDeferred deferred w, Panicked msg)
      end
  end.

End PutObject.

(** ** Test doubles

    A scripted transport, a clock that ticks once per reading, a generator
    of fixed letters and a header validator that asks for a [Server] header:
    the stand-ins the scenarios of the specification are run against. *)
Module Stub.

Definition emptyBody : Body.t := Body.mk [] None 0.

Definition standardHeaders : http.Header :=
  http.Set_ "Server" "stub" (http.Set_ "Date" "Mon, 02 Jan 2006 15:04:05 GMT" ∅).

(** A well-formed answer with the given status code and an empty body. *)
Definition answer (status : Z) : option Response * option Error :=
  (Some (mkResponse status standardHeaders (Some emptyBody)), None).

(** The [n]-th request (counting from 0) gets [script n]. *)
Definition script := nat -> option Response * option Error.

Definition allOK : script := fun _ => answer 200.
Definition failing (n : nat) (status : Z) : script :=
  fun k => if bool_decide (k = n) then answer status else answer 200.

Definition validator (h : http.Header) : option Error :=
  if bool_decide (http.Get "Server" h = "")
  then Some (errorString "No Server header") else None.

Definition letters (n seed : Z) (prefix : string) : string :=
  prefix +:+ string_of_bytes
    (replicate (Z.to_nat n) (byte_of_Z (97 + seed mod 26))).

#[export] Instance collaborators : Collaborators := {
  ServerConfig := script;
  Outside := nat * Z;
  appUserAgent := "s3verify (stub)";
  globalTotalNumTest := 20;
  verifyStandardHeaders := validator;
  execRequest := fun config _ _ o => ((S (fst o), snd o), config (fst o));
  time_Now_UnixNano := fun o => ((fst o, snd o + 1), snd o);
  randString := letters
}.

Definition world (buckets : list BucketInfo) : World :=
  mkWorld [] [] [] buckets (0%nat, 0) [].

End Stub.

(** * Vocabulary of the properties *)

(** [strings.Contains(s, sub)] *)
Definition contains (sub s : string) : Prop :=
  exists pre post, s = pre +:+ sub +:+ post.

(** Whether the character occurs in the text. *)
Fixpoint has_char (c : ascii) (s : string) : bool :=
  match s with
  | EmptyString => false
  | String c' rest => bool_decide (c = c') || has_char c rest
  end.

Section Vocabulary.
Context `{Collaborators}.

(** The requests handed to the transport, in order. *)
Definition requests (t : list Event) : list Request :=
  omap (fun e => match e with ExecRequest _ req => Some req | _ => None end) t.

(** The request [newPutObjectReq] builds, written out. *)
Definition putRequest (bucketName objectName : string) (objectData : bytes)
    : Request :=
  mkRequest bucketName objectName
    (http.Set_ "User-Agent" appUserAgent
       (http.Set_ "X-Amz-Content-Sha256"
          (hex.EncodeToString (sha256.Sum objectData))
          (http.Set_ "Content-MD5"
             (base64.EncodeToString (md5.Sum objectData)) ∅)))
    (Z.of_nat (length objectData))
    (Some (Reader.mk objectData 0)).

(** One upload goes through: the request for [object] is built, the
    transport carries it out without error, and the answer passes
    [putObjectVerify] with status 200. [o] is the outside world at the time
    of the call. *)
Definition uploadSucceeds (config : ServerConfig) (bucket : BucketInfo)
    (object : ObjectInfo) (o : Outside) : Prop :=
  exists req o' res res',
    newPutObjectReq (Name bucket) (Key object) (Body_ object) = (req, None) /\
    execRequest config "PUT" req o = (o', (res, None)) /\
    putObjectVerify res http.StatusOK = (res', Returned None).

(** [iterations config message bucket n i w w']: [n] passes through the body
    of the loop in a row, for [i], [i+1], ..., each reaching its closing
    brace, take the world from [w] to [w']. *)
Inductive iterations (config : ServerConfig) (message : string)
    (bucket : BucketInfo) : nat -> Z -> World -> World -> Prop :=
  | iterations_O i w : iterations config message bucket 0 i w w
  | iterations_S n i w w1 d w2 :
      unpreparedIteration config message bucket i w = (w1, d, Next) ->
      iterations config message bucket n (i + 1) w1 w2 ->
      iterations config message bucket (S n) i w w2.

(** The keys of [n] iterations from [i] on. *)
Fixpoint keysFrom (i : Z) (n : nat) : list string :=
  match n with
  | O => []
  | S n' => unpreparedKey i :: keysFrom (i + 1) n'
  end.

(** What was reported through [printMessage], in order. *)
Definition prints (t : list Event) : list (string * option Error) :=
  omap (fun e => match e with
                 | PrintMessage message err => Some (message, err)
                 | _ => None
                 end) t.

(** The responses handed to [closeResponse], in order. *)
Definition closes (t : list Event) : list (option Response) :=
  omap (fun e => match e with CloseResponse res => Some res | _ => None end) t.

(** The status lines shown by [scanBar], in order. *)
Definition spins (t : list Event) : list string :=
  omap (fun e => match e with ScanBar message => Some message | _ => None end) t.

(** A run from [w] to [fin] changes no list but [s3verifyObjects], to which
    it only appends, at most [bound] objects. *)
Definition keepsLists (bound : nat) (w : World) (fin : World * outcome bool)
    : Prop :=
  preparedObjects (fst fin) = preparedObjects w /\
  copyObjects (fst fin) = copyObjects w /\
  s3verifyBuckets (fst fin) = s3verifyBuckets w /\
  exists objs,
    s3verifyObjects (fst fin) = s3verifyObjects w ++ objs /\
    (length objs <= bound)%nat.

(** A run from [w] to [fin] shows only the status line [message], and
    reports once when it returns ([nil] exactly with [true]) and not at all
    when it panics. *)
Definition reportsOnce (message : string) (w : World)
    (fin : World * outcome bool) : Prop :=
  exists evs,
    trace (fst fin) = trace w ++ evs /\
    Forall (eq message) (spins evs) /\
    match snd fin with
    | Returned true => prints evs = [(message, None)]
    | Returned false => exists e, prints evs = [(message, Some e)]
    | Panicked _ => prints evs = []
    end.

(** A run from [w] to [fin] closes responses only as its last steps, after
    its last request; it closes as many as it sent requests, or one fewer,
    and one fewer only in a run that returns [false]. *)
Definition closesAtExit (w : World) (fin : World * outcome bool) : Prop :=
  exists evs deferred,
    trace (fst fin) = trace w ++ evs ++ map CloseResponse deferred /\
    closes evs = [] /\
    (length deferred <= length (requests evs) <= S (length deferred))%nat /\
    (snd fin ≠ Returned false -> length deferred = length (requests evs)).

(** A run from [w] to [fin] appends only objects it has uploaded to
    [bucket]: the requests it sent are those [newPutObjectReq] builds for
    the appended objects, in the order of the list, followed by at most one
    more request, and by none when the run returns [true]. *)
Definition uploadsWhatItAppends (bucket : BucketInfo) (w : World)
    (fin : World * outcome bool) : Prop :=
  exists objs extra,
    s3verifyObjects (fst fin) = s3verifyObjects w ++ objs /\
    requests (trace (fst fin))
      = requests (trace w)
        ++ map (fun obj => fst (newPutObjectReq (Name bucket) (Key obj)
                                  (Body_ obj))) objs
        ++ extra /\
    (length extra <= 1)%nat /\
    (snd fin = Returned true -> extra = []).

End Vocabulary.

(** * Properties *)

(** ** The library models against known answers *)

Example md5_empty :
  hex.EncodeToString (md5.Sum []) = "d41d8cd98f00b204e9800998ecf8427e".
Proof. vm_compute. reflexivity. Qed.

Example md5_abc :
  hex.EncodeToString (md5.Sum (bytes_of_string "abc"))
  = "900150983cd24fb0d6963f7d28e17f72".
Proof. vm_compute. reflexivity. Qed.

Example md5_two_blocks :
  hex.EncodeToString (md5.Sum (replicate 56 "a"%byte))
  = "3b0c8ac703f828b04c6c197006d17218".
Proof. vm_compute. reflexivity. Qed.

Example sha256_empty :
  hex.EncodeToString (sha256.Sum [])
  = "e3b0c44298fc1c149afbf4c8996fb92427ae41e4649b934ca495991b7852b855".
Proof. vm_compute. reflexivity. Qed.

Example sha256_abc :
  hex.EncodeToString (sha256.Sum (bytes_of_string "abc"))
  = "ba7816bf8f01cfea414140de5dae2223b00361a396177a9cb410ff61f20015ad".
Proof. vm_compute. reflexivity. Qed.

Example sha256_two_blocks :
  hex.EncodeToString (sha256.Sum (replicate 56 "a"%byte))
  = "b35439a4ac6f0948b6d6f9e3c6af0f5f590ce20f1bde7090ef7970686ec6738a".
Proof. vm_compute. reflexivity. Qed.

Example base64_rfc4648 :
  map (fun s => base64.EncodeToString (bytes_of_string s))
      ["f"; "fo"; "foo"; "foob"; "fooba"; "foobar"]
  = ["Zg=="; "Zm8="; "Zm9v"; "Zm9vYg=="; "Zm9vYmE="; "Zm9vYmFy"].
Proof. vm_compute. reflexivity. Qed.

Example canonical_keys :
  map http.CanonicalMIMEHeaderKey
      ["Content-MD5"; "x-amz-content-sha256"; "USER-AGENT"; "not a token"]
  = ["Content-Md5"; "X-Amz-Content-Sha256"; "User-Agent"; "not a token"].
Proof. vm_compute. reflexivity. Qed.

Example Itoa_samples :
  map strconv.Itoa [0; 7; 100; -403] = ["0"; "7"; "100"; "-403"].
Proof. vm_compute. reflexivity. Qed.

(** ** Headers *)

Lemma Get_Set_same (key value : string) (h : http.Header) :
  http.Get key (http.Set_ key value h) = value.
Proof. unfold http.Get, http.Set_. by rewrite lookup_insert_eq. Qed.

Lemma Get_Set_other (key key' value : string) (h : http.Header) :
  http.CanonicalMIMEHeaderKey key ≠ http.CanonicalMIMEHeaderKey key' ->
  http.Get key (http.Set_ key' value h) = http.Get key h.
Proof.
  intros Hne. unfold http.Get, http.Set_. by rewrite lookup_insert_ne.
Qed.

(** ** The hasher on a fresh reader *)

Lemma computeHash_NewReader (P : bytes) :
  computeHash (Reader.NewReader P)
  = (Reader.mk P 0, (md5.Sum P, sha256.Sum P, Z.of_nat (length P), None)).
Proof. reflexivity. Qed.

Lemma ReadAll_rewound (P : bytes) :
  ReadAll (Reader.mk P 0) = (Reader.mk P (Z.of_nat (length P)), (P, None)).
Proof. reflexivity. Qed.

Section RequestProperties.
Context `{Collaborators}.

Lemma newPutObjectReq_eq (b o : string) (P : bytes) :
  newPutObjectReq b o P = (putRequest b o P, None).
Proof.
  unfold newPutObjectReq. rewrite computeHash_NewReader. reflexivity.
Qed.

(** C1. Whenever [newPutObjectReq] returns a request without error, its
    [Content-MD5] header is the base64 encoding of the MD5 digest of the
    payload, its [X-Amz-Content-Sha256] header is the hex encoding of the
    SHA-256 digest of the payload, and its body, read from where it stands,
    yields exactly the payload (so the digests taken again from the body are
    the declared ones). *)
Theorem newPutObjectReq_digests_round_trip
    (b o : string) (P : bytes) (req : Request) :
  newPutObjectReq b o P = (req, None) ->
  http.Get "Content-MD5" (customHeader req)
    = base64.EncodeToString (md5.Sum P) /\
  http.Get "X-Amz-Content-Sha256" (customHeader req)
    = hex.EncodeToString (sha256.Sum P) /\
  exists body rest data,
    contentBody req = Some body /\
    ReadAll body = (rest, (data, None)) /\
    data = P /\
    http.Get "Content-MD5" (customHeader req)
      = base64.EncodeToString (md5.Sum data) /\
    http.Get "X-Amz-Content-Sha256" (customHeader req)
      = hex.EncodeToString (sha256.Sum data).
Proof.
  rewrite newPutObjectReq_eq. intros [= <-]. cbn [customHeader putRequest].
  assert (Hmd5 : http.Get "Content-MD5"
            (http.Set_ "User-Agent" appUserAgent
               (http.Set_ "X-Amz-Content-Sha256"
                  (hex.EncodeToString (sha256.Sum P))
                  (http.Set_ "Content-MD5"
                     (base64.EncodeToString (md5.Sum P)) ∅)))
          = base64.EncodeToString (md5.Sum P)).
  { rewrite !Get_Set_other by (vm_compute; discriminate).
    apply Get_Set_same. }
  assert (Hsha : http.Get "X-Amz-Content-Sha256"
            (http.Set_ "User-Agent" appUserAgent
               (http.Set_ "X-Amz-Content-Sha256"
                  (hex.EncodeToString (sha256.Sum P))
                  (http.Set_ "Content-MD5"
                     (base64.EncodeToString (md5.Sum P)) ∅)))
          = hex.EncodeToString (sha256.Sum P)).
  { rewrite Get_Set_other by (vm_compute; discriminate).
    apply Get_Set_same. }
  split; [exact Hmd5|]. split; [exact Hsha|].
  exists (Reader.mk P 0), (Reader.mk P (Z.of_nat (length P))), P.
  split_and!; [reflexivity | apply ReadAll_rewound | reflexivity | exact Hmd5 | exact Hsha].
Qed.

(** C2. For every bucket name, object name and payload, the empty payload
    included, [newPutObjectReq] does return a request without error, and
    whenever it returns a request without error the [contentLength] of that
    request is the number of bytes of the payload. *)
Theorem newPutObjectReq_contentLength (b o : string) (P : bytes) :
  (exists req, newPutObjectReq b o P = (req, None)) /\
  (forall req,
     newPutObjectReq b o P = (req, None) ->
     contentLength req = Z.of_nat (length P)).
Proof.
  rewrite newPutObjectReq_eq. split.
  - by eexists.
  - by intros req [= <-].
Qed.

(** C8, as the code has it. [newPutObjectReq] never looks at the two names:
    for every bucket name and object name, empty or not, and every payload,
    it returns without error a request that carries the names as given. *)
Theorem newPutObjectReq_accepts_any_names (b o : string) (P : bytes) :
  exists req,
    newPutObjectReq b o P = (req, None) /\
    bucketName req = b /\ objectName req = o /\
    contentLength req = Z.of_nat (length P).
Proof. exists (putRequest b o P). by rewrite newPutObjectReq_eq. Qed.

End RequestProperties.

Lemma newPutObjectReq_digests_round_trip_witness :
  let req := @putRequest Stub.collaborators "b1" "k1" (bytes_of_string "hello") in
  @newPutObjectReq Stub.collaborators "b1" "k1" (bytes_of_string "hello")
    = (req, None) /\
  http.Get "Content-MD5" (customHeader req) = "XUFAKrxLKna5cZ2REBfFkg==" /\
  http.Get "X-Amz-Content-Sha256" (customHeader req)
    = "2cf24dba5fb0a30e26e83b2ac5b9e29e1b161e5c1fa7425e73043362938b9824".
Proof.
  assert (Hreq : @newPutObjectReq Stub.collaborators "b1" "k1"
                   (bytes_of_string "hello")
                 = (@putRequest Stub.collaborators "b1" "k1"
                      (bytes_of_string "hello"), None))
    by (vm_compute; reflexivity).
  pose proof (@newPutObjectReq_digests_round_trip Stub.collaborators
                "b1" "k1" (bytes_of_string "hello") _ Hreq) as (Hmd5 & Hsha & _).
  split; [exact Hreq|]. split.
  - rewrite Hmd5. vm_compute. reflexivity.
  - rewrite Hsha. vm_compute. reflexivity.
Defined.

Lemma newPutObjectReq_contentLength_witness :
  snd (@newPutObjectReq Stub.collaborators "b1" "k1" []) = None /\
  contentLength (fst (@newPutObjectReq Stub.collaborators "b1" "k1" [])) = 0 /\
  snd (@newPutObjectReq Stub.collaborators "b1" "k1"
         (bytes_of_string "hello")) = None /\
  contentLength (fst (@newPutObjectReq Stub.collaborators "b1" "k1"
                        (bytes_of_string "hello"))) = 5.
Proof.
  destruct (@newPutObjectReq_contentLength Stub.collaborators "b1" "k1" [])
    as [[req0 Hreq0] Hlen0].
  destruct (@newPutObjectReq_contentLength Stub.collaborators "b1" "k1"
              (bytes_of_string "hello")) as [[req5 Hreq5] Hlen5].
  rewrite Hreq0, Hreq5. cbn [fst snd].
  split; [reflexivity|]. split; [exact (Hlen0 req0 Hreq0)|].
  split; [reflexivity|]. exact (Hlen5 req5 Hreq5).
Defined.

(** C8 as stated fails: with both names empty the request is built, and no
    error is returned. *)
Lemma newPutObjectReq_empty_names_no_error :
  snd (@newPutObjectReq Stub.collaborators "" "" (bytes_of_string "hello"))
    = None /\
  bucketName (fst (@newPutObjectReq Stub.collaborators "" ""
                     (bytes_of_string "hello"))) = "" /\
  objectName (fst (@newPutObjectReq Stub.collaborators "" ""
                     (bytes_of_string "hello"))) = "" /\
  contentLength (fst (@newPutObjectReq Stub.collaborators "" ""
                        (bytes_of_string "hello"))) = 5.
Proof. vm_compute. repeat split. Qed.

(** ** Strings *)

Lemma append_assoc (s1 s2 s3 : string) :
  (s1 +:+ s2) +:+ s3 = s1 +:+ s2 +:+ s3.
Proof.
  induction s1 as [|c s1 IH]; [done|].
  change (String c ((s1 +:+ s2) +:+ s3) = String c (s1 +:+ s2 +:+ s3)).
  by rewrite IH.
Qed.

Lemma append_empty_r (s : string) : s +:+ "" = s.
Proof.
  induction s as [|c s IH]; [done|].
  change (String c (s +:+ "") = String c s). by rewrite IH.
Qed.

Lemma contains_middle (pre sub post : string) :
  contains sub (pre +:+ sub +:+ post).
Proof. by exists pre, post. Qed.

Lemma contains_suffix (pre sub : string) : contains sub (pre +:+ sub).
Proof. exists pre, "". by rewrite append_empty_r. Qed.

(** ** The sub-checks *)

Section VerifyProperties.
Context `{Collaborators}.

Lemma verifyStatusPutObject_same (code : Z) :
  verifyStatusPutObject code code = None.
Proof. unfold verifyStatusPutObject. by rewrite bool_decide_eq_false_2 by auto. Qed.

Lemma verifyStatusPutObject_None (resp expected : Z) :
  verifyStatusPutObject resp expected = None <-> resp = expected.
Proof.
  unfold verifyStatusPutObject. case_bool_decide as Hne; [done|].
  split; [intros _ | done]. by destruct (decide (resp = expected)).
Qed.

(** C5. The status check returns [nil] on equal codes; on different codes it
    returns the error "Unexpected Response Status Code: wanted E, got A",
    whose message contains the decimal form of the expected code and that of
    the actual one. *)
Theorem verifyStatusPutObject_reports_both (respStatusCode expectedStatusCode : Z) :
  (respStatusCode = expectedStatusCode ->
   verifyStatusPutObject respStatusCode expectedStatusCode = None) /\
  (respStatusCode ≠ expectedStatusCode ->
   exists err,
     verifyStatusPutObject respStatusCode expectedStatusCode = Some err /\
     Error_msg err = "Unexpected Response Status Code: wanted "
                     +:+ strconv.Itoa expectedStatusCode
                     +:+ ", got " +:+ strconv.Itoa respStatusCode /\
     contains (strconv.Itoa expectedStatusCode) (Error_msg err) /\
     contains (strconv.Itoa respStatusCode) (Error_msg err)).
Proof.
  split.
  - intros ->. apply verifyStatusPutObject_same.
  - intros Hne. unfold verifyStatusPutObject.
    rewrite bool_decide_eq_true_2 by done.
    eexists. split; [reflexivity|]. cbn [Error_msg fmt.Errorf fmt.v_int].
    split; [reflexivity|]. split.
    + apply contains_middle.
    + rewrite <- !append_assoc. apply contains_suffix.
Qed.

(** What the body check does with a stream whose reading ends without a
    read error. *)
Lemma verifyBodyPutObject_readable `{ioReader R} (rd rd' : R) (content : bytes) :
  ReadAll rd = (rd', (content, None)) ->
  verifyBodyPutObject (Some rd)
  = (Some rd',
     Returned
       (if bool_decide (content ≠ [])
        then Some (errorString
               ("Unexpected Body Recieved: expected empty body but recieved: "
                +:+ string_of_bytes content))
        else None)).
Proof.
  intros Hread. unfold verifyBodyPutObject, ioutil.ReadAll. rewrite Hread.
  by case_bool_decide.
Qed.

Lemma verifyBodyPutObject_nil `{ioReader R} :
  verifyBodyPutObject (R:=R) None = (None, Panicked nil_dereference).
Proof. reflexivity. Qed.

(** The body check never panics on a stream that is there. *)
Lemma verifyBodyPutObject_returns `{ioReader R} (rd : R) :
  exists err, snd (verifyBodyPutObject (Some rd)) = Returned err.
Proof.
  unfold verifyBodyPutObject, ioutil.ReadAll.
  destruct (ReadAll rd) as [rd' [content [e|]]]; [by eexists|].
  case_bool_decide; by eexists.
Qed.

Lemma verifyHeaderPutObject_eq (header : http.Header) :
  verifyHeaderPutObject header = verifyStandardHeaders header.
Proof. unfold verifyHeaderPutObject. by destruct (verifyStandardHeaders _). Qed.

(** C6. On a body stream that can be read to its end, the body check reads
    it all and returns [nil] exactly when the stream held no byte; for any
    other content it returns an error whose message contains the content. So
    a response with the expected status code, headers the standard validator
    accepts and an empty body passes [putObjectVerify]. *)
Theorem verifyBodyPutObject_empty_body_only :
  (forall R (IO : ioReader R) (rd rd' : R) (content : bytes),
     ReadAll rd = (rd', (content, None)) ->
     fst (verifyBodyPutObject (Some rd)) = Some rd' /\
     (snd (verifyBodyPutObject (Some rd)) = Returned None
      <-> length content = 0%nat) /\
     (content ≠ [] ->
      exists err,
        snd (verifyBodyPutObject (Some rd)) = Returned (Some err) /\
        contains (string_of_bytes content) (Error_msg err))) /\
  (forall (r : Response) (b : Body.t) (expectedStatusCode : Z),
     StatusCode r = expectedStatusCode ->
     verifyStandardHeaders (Header r) = None ->
     Body r = Some b -> Body.pending b = [] -> Body.failure b = None ->
     putObjectVerify (Some r) expectedStatusCode
     = (Some (mkResponse (StatusCode r) (Header r)
                (Some (Body.mk [] None (S (Body.drained b))))),
        Returned None)).
Proof.
  split.
  - intros R IO rd rd' content Hread.
    rewrite (verifyBodyPutObject_readable _ _ _ Hread). cbn [fst snd].
    split; [done|]. split.
    + case_bool_decide as Hc; split.
      * done.
      * intros Hlen. by destruct content.
      * intros _. destruct content; [|contradict Hc]; done.
      * done.
    + intros Hc. rewrite bool_decide_eq_true_2 by done.
      eexists. split; [reflexivity|]. apply contains_suffix.
  - intros r b expected Hstatus Hheader Hbody Hpending Hfailure.
    unfold putObjectVerify.
    rewrite verifyHeaderPutObject_eq, Hheader, Hstatus,
      verifyStatusPutObject_same, Hbody.
    rewrite (verifyBodyPutObject_readable b
               (Body.mk [] None (S (Body.drained b))) []).
    + reflexivity.
    + destruct b as [pending failure drained]. simpl in *. by subst.
Qed.

(** C4. [putObjectVerify] is the header check, then the status check, then
    the body check: the header check gives the verdict of
    [verifyStandardHeaders] unchanged; an error of the header check is
    returned with the response untouched (no status or body check); with the
    headers accepted, an error of the status check is returned with the body
    unread; with both accepted, the result is that of the body check; and
    the result is [nil] exactly when all three pass. *)
Theorem putObjectVerify_three_checks_in_order
    (r : Response) (expectedStatusCode : Z) :
  (forall header, verifyHeaderPutObject header = verifyStandardHeaders header) /\
  (forall err,
     verifyHeaderPutObject (Header r) = Some err ->
     putObjectVerify (Some r) expectedStatusCode
     = (Some r, Returned (Some err))) /\
  (forall err,
     verifyHeaderPutObject (Header r) = None ->
     verifyStatusPutObject (StatusCode r) expectedStatusCode = Some err ->
     putObjectVerify (Some r) expectedStatusCode
     = (Some r, Returned (Some err))) /\
  (verifyHeaderPutObject (Header r) = None ->
   verifyStatusPutObject (StatusCode r) expectedStatusCode = None ->
   putObjectVerify (Some r) expectedStatusCode
   = (Some (mkResponse (StatusCode r) (Header r)
              (fst (verifyBodyPutObject (Body r)))),
      snd (verifyBodyPutObject (Body r)))) /\
  (snd (putObjectVerify (Some r) expectedStatusCode) = Returned None <->
   verifyHeaderPutObject (Header r) = None /\
   verifyStatusPutObject (StatusCode r) expectedStatusCode = None /\
   snd (verifyBodyPutObject (Body r)) = Returned None).
Proof.
  split; [apply verifyHeaderPutObject_eq|].
  unfold putObjectVerify.
  destruct (verifyHeaderPutObject (Header r)) as [eh|].
  { split_and!; try done.
    - by intros err [= ->].
    - split; [done | by intros (? & _)]. }
  destruct (verifyStatusPutObject (StatusCode r) expectedStatusCode) as [es|].
  { split_and!; try done.
    - by intros err _ [= ->].
    - split; [done | by intros (_ & ? & _)]. }
  destruct (verifyBodyPutObject (Body r)) as [body out]. cbn [fst snd].
  split_and!; try done. split; [done | by intros (_ & _ & ?)].
Qed.

(** C7, as the code has it. [putObjectVerify] reads the body at most once:
    not at all when the header check or the status check fails, and once,
    to its end, when both pass. It has no guard for a [nil] body: with the
    headers and the status accepted the body check panics on it, and when
    one of the two fails the [nil] body is never touched. *)
Theorem putObjectVerify_reads_body_at_most_once
    (r : Response) (expectedStatusCode : Z) :
  let checked :=
    verifyHeaderPutObject (Header r) = None /\
    verifyStatusPutObject (StatusCode r) expectedStatusCode = None in
  match Body r with
  | Some b =>
      exists b' err,
        putObjectVerify (Some r) expectedStatusCode
        = (Some (mkResponse (StatusCode r) (Header r) (Some b')),
           Returned err) /\
        (checked -> Body.drained b' = S (Body.drained b)
                    /\ Body.pending b' = []) /\
        (~ checked -> b' = b /\ err ≠ None)
  | None =>
      (checked ->
       putObjectVerify (Some r) expectedStatusCode
       = (Some r, Panicked nil_dereference)) /\
      (~ checked ->
       exists err,
         putObjectVerify (Some r) expectedStatusCode
         = (Some r, Returned (Some err)))
  end.
Proof.
  intros checked. subst checked. unfold putObjectVerify.
  destruct r as [status header body]. cbn [StatusCode Header Body].
  destruct (verifyHeaderPutObject header) as [eh|].
  { destruct body as [b|].
    - exists b, (Some eh). split_and!; [done | by intros [? _] | done].
    - split; [by intros [? _] | by exists eh]. }
  destruct (verifyStatusPutObject status expectedStatusCode) as [es|].
  { destruct body as [b|].
    - exists b, (Some es). split_and!; [done | by intros [_ ?] | done].
    - split; [by intros [_ ?] | by exists es]. }
  destruct body as [b|].
  - unfold verifyBodyPutObject, ioutil.ReadAll, ReadAll, Body_ioReader,
      Body.drain.
    destruct (Body.failure b) as [e|] eqn:Hfail.
    + eexists _, _. split; [reflexivity|]. split; [done|].
      intros Hn. by destruct Hn.
    + case_bool_decide.
      * eexists _, _. split; [reflexivity|]. split; [done|].
        intros Hn. by destruct Hn.
      * eexists _, _. split; [reflexivity|]. split; [done|].
        intros Hn. by destruct Hn.
  - split; [done|]. intros Hn. by destruct Hn.
Qed.

End VerifyProperties.

Lemma verifyStatusPutObject_reports_both_witness :
  verifyStatusPutObject 200 200 = None /\
  verifyStatusPutObject 403 200
  = Some (errorString
            "Unexpected Response Status Code: wanted 200, got 403") /\
  contains "200" "Unexpected Response Status Code: wanted 200, got 403" /\
  contains "403" "Unexpected Response Status Code: wanted 200, got 403".
Proof.
  destruct (verifyStatusPutObject_reports_both 200 200) as [Hsame _].
  destruct (verifyStatusPutObject_reports_both 403 200) as [_ Hdiff].
  destruct Hdiff as (err & Herr & Hmsg & Hexp & Hact); [done|].
  assert (Hval : verifyStatusPutObject 403 200
                 = Some (errorString
                     "Unexpected Response Status Code: wanted 200, got 403"))
    by (vm_compute; reflexivity).
  rewrite Hval in Herr. injection Herr as <-.
  split; [by apply Hsame|]. split; [exact Hval|]. split; [exact Hexp | exact Hact].
Defined.

Lemma putObjectVerify_three_checks_in_order_witness :
  let oops := Body.mk (bytes_of_string "oops") None 0 in
  @putObjectVerify Stub.collaborators
    (Some (mkResponse 403 ∅ (Some oops))) 200
  = (Some (mkResponse 403 ∅ (Some oops)),
     Returned (Some (errorString "No Server header"))) /\
  @putObjectVerify Stub.collaborators
    (Some (mkResponse 403 Stub.standardHeaders (Some oops))) 200
  = (Some (mkResponse 403 Stub.standardHeaders (Some oops)),
     Returned (Some (errorString
        "Unexpected Response Status Code: wanted 200, got 403"))) /\
  snd (@putObjectVerify Stub.collaborators
         (Some (mkResponse 200 Stub.standardHeaders (Some Stub.emptyBody))) 200)
  = Returned None.
Proof.
  cbv zeta. split_and!.
  - destruct (@putObjectVerify_three_checks_in_order Stub.collaborators
                (mkResponse 403 ∅
                   (Some (Body.mk (bytes_of_string "oops") None 0))) 200)
      as (_ & Hheader & _).
    apply Hheader. vm_compute. reflexivity.
  - destruct (@putObjectVerify_three_checks_in_order Stub.collaborators
                (mkResponse 403 Stub.standardHeaders
                   (Some (Body.mk (bytes_of_string "oops") None 0))) 200)
      as (_ & _ & Hstatus & _).
    apply Hstatus; vm_compute; reflexivity.
  - destruct (@putObjectVerify_three_checks_in_order Stub.collaborators
                (mkResponse 200 Stub.standardHeaders (Some Stub.emptyBody)) 200)
      as (_ & _ & _ & _ & Hnil).
    apply Hnil. vm_compute. done.
Defined.

Lemma verifyBodyPutObject_empty_body_only_witness :
  snd (verifyBodyPutObject (Some (Body.mk (bytes_of_string "oops") None 0)))
  = Returned (Some (errorString
      "Unexpected Body Recieved: expected empty body but recieved: oops")) /\
  snd (verifyBodyPutObject (Some Stub.emptyBody)) = Returned None /\
  @putObjectVerify Stub.collaborators
     (Some (mkResponse 200 Stub.standardHeaders (Some Stub.emptyBody))) 200
  = (Some (mkResponse 200 Stub.standardHeaders
             (Some (Body.mk [] None 1))), Returned None).
Proof.
  destruct (@verifyBodyPutObject_empty_body_only Stub.collaborators)
    as [Hbody Hverify].
  split_and!.
  - vm_compute. reflexivity.
  - apply (Hbody Body.t _ Stub.emptyBody (Body.mk [] None 1) []);
      vm_compute; reflexivity.
  - apply (Hverify (mkResponse 200 Stub.standardHeaders (Some Stub.emptyBody))
             Stub.emptyBody 200); vm_compute; reflexivity.
Defined.

(** C7 as stated fails: with accepted headers, the expected status and a
    [nil] body, [putObjectVerify] panics. *)
Lemma putObjectVerify_nil_body_panics :
  @putObjectVerify Stub.collaborators
    (Some (mkResponse 200 Stub.standardHeaders None)) 200
  = (Some (mkResponse 200 Stub.standardHeaders None),
     Panicked "runtime error: invalid memory address or nil pointer dereference").
Proof. vm_compute. reflexivity. Qed.

(** ** The drivers *)

Section DriverProperties.
Context `{Collaborators}.

Lemma requests_app (t1 t2 : list Event) :
  requests (t1 ++ t2) = requests t1 ++ requests t2.
Proof. apply omap_app. Qed.

Lemma requests_CloseResponse (deferred : list (option Response)) :
  requests (map CloseResponse deferred) = [].
Proof. induction deferred as [|res deferred IH]; [done | exact IH]. Qed.

(** Running the deferred calls only adds their record to the trace. *)
Lemma runDeferred_eq (deferred : list (option Response)) (w : World) :
  runDeferred deferred w
  = mkWorld (s3verifyObjects w) (preparedObjects w) (copyObjects w)
            (s3verifyBuckets w) (outside w)
            (trace w ++ map CloseResponse deferred).
Proof.
  revert w. induction deferred as [|res deferred IH]; intros w.
  - destruct w. cbn. by rewrite app_nil_r.
  - change (runDeferred (res :: deferred) w)
      with (runDeferred deferred (closeResponse res w)).
    rewrite IH. cbn. by rewrite <- app_assoc.
Qed.

Lemma requests_runDeferred (deferred : list (option Response)) (w : World) :
  requests (trace (runDeferred deferred w)) = requests (trace w).
Proof.
  rewrite runDeferred_eq. cbn [trace].
  by rewrite requests_app, requests_CloseResponse, app_nil_r.
Qed.

Lemma s3verifyObjects_runDeferred (deferred : list (option Response)) (w : World) :
  s3verifyObjects (runDeferred deferred w) = s3verifyObjects w.
Proof. by rewrite runDeferred_eq. Qed.

Lemma outside_runDeferred (deferred : list (option Response)) (w : World) :
  outside (runDeferred deferred w) = outside w.
Proof. by rewrite runDeferred_eq. Qed.

Lemma keysFrom_length (n : nat) (i : Z) : length (keysFrom i n) = n.
Proof. revert i. induction n as [|n IH]; intros i; cbn; [done | by rewrite IH]. Qed.

Lemma keysFrom_snoc (n : nat) (i : Z) :
  keysFrom i (S n) = keysFrom i n ++ [unpreparedKey (i + Z.of_nat n)].
Proof.
  revert i. induction n as [|n IH]; intros i.
  - cbn [keysFrom app]. by rewrite Z.add_0_r.
  - change (keysFrom i (S (S n)))
      with (unpreparedKey i :: keysFrom (i + 1) (S n)).
    rewrite IH. cbn [keysFrom app].
    by replace (i + 1 + Z.of_nat n) with (i + Z.of_nat (S n)) by lia.
Qed.

(** An upload has one outcome: the three calls it consists of are functions. *)
Lemma uploadSucceeds_iff (config : ServerConfig) (bucket : BucketInfo)
    (object : ObjectInfo) (o o' : Outside) (res : option Response)
    (err : option Error) :
  execRequest config "PUT"
    (putRequest (Name bucket) (Key object) (Body_ object)) o = (o', (res, err)) ->
  uploadSucceeds config bucket object o
  <-> err = None /\ snd (putObjectVerify res http.StatusOK) = Returned None.
Proof.
  intros Hexec. split.
  - intros (req & o1 & res1 & res1' & Hreq & Hexec1 & Hverify).
    rewrite newPutObjectReq_eq in Hreq. injection Hreq as <-.
    rewrite Hexec in Hexec1. injection Hexec1 as -> -> ->.
    by rewrite Hverify.
  - intros [-> Hverify].
    destruct (putObjectVerify res http.StatusOK) as [res' out] eqn:Hv.
    cbn in Hverify. subst out.
    exists (putRequest (Name bucket) (Key object) (Body_ object)), o', res, res'.
    by rewrite newPutObjectReq_eq.
Qed.

(** One pass through the body of the loop, taken apart: the clock is read,
    the request for the object of this iteration is handed to the transport,
    and the object is appended exactly when the upload went through. *)
Lemma unpreparedIteration_inv (config : ServerConfig) (message : string)
    (bucket : BucketInfo) (i : Z) (w w' : World)
    (d : list (option Response)) (c : control) :
  unpreparedIteration config message bucket i w = (w', d, c) ->
  exists o1 seed,
    time_Now_UnixNano (outside w) = (o1, seed) /\
    let object := mkObjectInfo (unpreparedKey i)
                    (bytes_of_string (randString 60 seed "")) in
    requests (trace w')
      = requests (trace w)
        ++ [putRequest (Name bucket) (Key object) (Body_ object)] /\
    s3verifyBuckets w' = s3verifyBuckets w /\
    preparedObjects w' = preparedObjects w /\
    copyObjects w' = copyObjects w /\
    ((c = Next /\ uploadSucceeds config bucket object o1 /\
      s3verifyObjects w' = s3verifyObjects w ++ [object]) \/
     (c ≠ Next /\ ~ uploadSucceeds config bucket object o1 /\
      s3verifyObjects w' = s3verifyObjects w)).
Proof.
  unfold unpreparedIteration, freshString, doExecRequest.
  cbn [outside scanBar log].
  destruct (time_Now_UnixNano (outside w)) as [o1 seed] eqn:Hclock.
  rewrite newPutObjectReq_eq. cbn [outside with_outside Key Body_].
  destruct (execRequest config "PUT" _ o1) as [o2 [res err]] eqn:Hexec.
  pose proof (uploadSucceeds_iff config bucket
                (mkObjectInfo (unpreparedKey i)
                   (bytes_of_string (randString 60 seed ""))) _ _ _ _ Hexec)
    as Hiff.
  destruct err as [e|].
  { intros [= <- <- <-]. exists o1, seed. split; [done|]. cbn.
    rewrite !requests_app. cbn. rewrite !app_nil_r.
    split_and!; try done. right. split_and!; try done.
    rewrite Hiff. by intros [? _]. }
  destruct (putObjectVerify res http.StatusOK) as [res' [[e|]|msg]] eqn:Hverify;
    intros [= <- <- <-]; exists o1, seed; (split; [done|]); cbn;
    rewrite !requests_app; cbn; rewrite ?app_nil_r;
    (split_and!; try done).
  - right. split_and!; try done. rewrite Hiff. by intros [_ ?].
  - left. split_and!; try done. by rewrite Hiff.
  - right. split_and!; try done. rewrite Hiff. by intros [_ ?].
Qed.

Lemma unpreparedIteration_Return (config : ServerConfig) (message : string)
    (bucket : BucketInfo) (i : Z) (w w' : World)
    (d : list (option Response)) (result : bool) :
  unpreparedIteration config message bucket i w = (w', d, Return result) ->
  result = false.
Proof.
  unfold unpreparedIteration.
  destruct (freshString 60 "" (scanBar message w)) as [w1 body].
  destruct (newPutObjectReq _ _ _) as [req [e|]]; [by intros [= _ _ <-]|].
  destruct (doExecRequest config "PUT" req w1) as [w2 [res [e|]]];
    [by intros [= _ _ <-]|].
  destruct (putObjectVerify res http.StatusOK) as [res' [[e|]|msg]];
    by intros [= _ _ <-].
Qed.

(** What [n] successful iterations leave behind: [n] requests and [n]
    objects, with the keys of the iterations, all for the one bucket. *)
Lemma iterations_effect (config : ServerConfig) (message : string)
    (bucket : BucketInfo) (n : nat) (i : Z) (w wn : World) :
  iterations config message bucket n i w wn ->
  s3verifyBuckets wn = s3verifyBuckets w /\
  preparedObjects wn = preparedObjects w /\
  copyObjects wn = copyObjects w /\
  exists objs reqs,
    s3verifyObjects wn = s3verifyObjects w ++ objs /\
    map Key objs = keysFrom i n /\
    requests (trace wn) = requests (trace w) ++ reqs /\
    map objectName reqs = keysFrom i n /\
    Forall (fun req => bucketName req = Name bucket) reqs.
Proof.
  induction 1 as [i w | n i w w1 d w2 Hstep Hrest IH].
  - split_and!; try done. exists [], []. by rewrite !app_nil_r.
  - apply unpreparedIteration_inv in Hstep
      as (o1 & seed & _ & Hreqs & Hb & Hp & Hc & Hcase).
    destruct Hcase as [(_ & _ & Hobjs) | (Hne & _)]; [|done].
    destruct IH as (Hb' & Hp' & Hc' & objs & reqs & Ho & Hk & Hr & Hn & Hall).
    split_and!; [congruence..|].
    eexists (_ :: objs), (_ :: reqs). split_and!.
    + rewrite Ho, Hobjs, <- app_assoc. reflexivity.
    + cbn [map keysFrom Key]. by rewrite Hk.
    + rewrite Hr, Hreqs, <- app_assoc. reflexivity.
    + cbn [map keysFrom objectName putRequest Key]. by rewrite Hn.
    + by constructor.
Qed.

(** After [n] successful iterations the loop is where a loop started there
    would be. *)
Lemma unpreparedLoop_after (config : ServerConfig) (message : string)
    (bucket : BucketInfo) (n : nat) (i : Z) (w wn : World) :
  iterations config message bucket n i w wn ->
  forall (count : nat) (deferred : list (option Response)),
  exists dn,
    unpreparedLoop config message bucket (n + count) i deferred w
    = unpreparedLoop config message bucket count (i + Z.of_nat n)
        (dn ++ deferred) wn.
Proof.
  induction 1 as [i w | n i w w1 d w2 Hstep Hrest IH]; intros count deferred.
  - exists []. by rewrite Z.add_0_r.
  - destruct (IH count (d ++ deferred)) as [dn Hdn].
    exists (dn ++ d). cbn [Nat.add unpreparedLoop]. rewrite Hstep, Hdn.
    rewrite <- app_assoc. f_equal. lia.
Qed.

(** Every run of the loop is some successful iterations, followed either by
    the end of the loop or by one iteration that does not reach its closing
    brace, after which nothing more is done. *)
Lemma unpreparedLoop_inv (config : ServerConfig) (message : string)
    (bucket : BucketInfo) (count : nat) :
  forall (i : Z) (deferred : list (option Response)) (w w' : World)
         (d' : list (option Response)) (c : control),
  unpreparedLoop config message bucket count i deferred w = (w', d', c) ->
  exists (n : nat) (wn : World),
    iterations config message bucket n i w wn /\
    ((c = Next /\ n = count /\ w' = wn) \/
     (c ≠ Next /\ (n < count)%nat /\
      exists d,
        unpreparedIteration config message bucket (i + Z.of_nat n) wn
        = (w', d, c))).
Proof.
  induction count as [|count IH]; intros i deferred w w' d' c Hloop.
  - injection Hloop as <- <- <-. exists 0%nat, w. split; [constructor|].
    by left.
  - cbn [unpreparedLoop] in Hloop.
    destruct (unpreparedIteration config message bucket i w)
      as [[w1 d] c1] eqn:Hstep.
    destruct c1 as [|result|msg].
    + apply IH in Hloop as (n & wn & Hn & Hcase).
      exists (S n), wn. split; [by econstructor|].
      destruct Hcase as [(-> & -> & ->) | (Hc & Hlt & d0 & Hfail)].
      * by left.
      * right. split_and!; [done | lia |]. exists d0.
        by replace (i + Z.of_nat (S n)) with (i + 1 + Z.of_nat n) by lia.
    + injection Hloop as <- <- <-. exists 0%nat, w.
      split; [constructor|]. right. split_and!; [done | lia |].
      exists d. by rewrite Z.add_0_r.
    + injection Hloop as <- <- <-. exists 0%nat, w.
      split; [constructor|]. right. split_and!; [done | lia |].
      exists d. by rewrite Z.add_0_r.
Qed.

(** The prepared driver, taken apart like one iteration of the loop. *)
Lemma mainPutObjectPrepared_inv (config : ServerConfig) (curTest : Z)
    (w : World) (bucket : BucketInfo) (rest : list BucketInfo) :
  s3verifyBuckets w = bucket :: rest ->
  exists o1 seed,
    time_Now_UnixNano (outside w) = (o1, seed) /\
    let object := mkObjectInfo "s3verify/made/put/object"
                    (bytes_of_string (randString 60 seed "")) in
    let fin := mainPutObjectPrepared config curTest w in
    requests (trace (fst fin))
      = requests (trace w)
        ++ [putRequest (Name bucket) (Key object) (Body_ object)] /\
    ((snd fin = Returned true /\ uploadSucceeds config bucket object o1 /\
      s3verifyObjects (fst fin) = s3verifyObjects w ++ [object]) \/
     (snd fin ≠ Returned true /\ ~ uploadSucceeds config bucket object o1 /\
      s3verifyObjects (fst fin) = s3verifyObjects w)).
Proof.
  intros Hbuckets.
  unfold mainPutObjectPrepared, freshString, doExecRequest.
  rewrite Hbuckets. cbn [lookup list_lookup outside scanBar log].
  destruct (time_Now_UnixNano (outside w)) as [o1 seed] eqn:Hclock.
  rewrite newPutObjectReq_eq. cbn [outside with_outside log scanBar Key Body_].
  destruct (execRequest config "PUT" _ o1) as [o2 [res err]] eqn:Hexec.
  pose proof (uploadSucceeds_iff config bucket
                (mkObjectInfo "s3verify/made/put/object"
                   (bytes_of_string (randString 60 seed ""))) _ _ _ _ Hexec)
    as Hiff.
  exists o1, seed. split; [done|].
  destruct err as [e|].
  { cbn. rewrite !requests_app. cbn. rewrite !app_nil_r.
    split; [done|]. right. split_and!; try done.
    rewrite Hiff. by intros [? _]. }
  destruct (putObjectVerify res http.StatusOK) as [res' [[e|]|msg]] eqn:Hverify;
    cbn; rewrite !requests_app; cbn; rewrite ?app_nil_r; (split; [done|]).
  - right. split_and!; try done. rewrite Hiff. by intros [_ ?].
  - left. split_and!; try done. by rewrite Hiff.
  - right. split_and!; try done. rewrite Hiff. by intros [_ ?].
Qed.

Lemma app_singleton_neq {A} (l : list A) (x : A) : l ++ [x] ≠ l.
Proof.
  intros Heq. apply (f_equal length) in Heq. rewrite length_app in Heq.
  cbn in Heq. lia.
Qed.

(** C3. A descriptor is appended to [s3verifyObjects] exactly when the
    request is built, the transport carries it out and the answer passes the
    verification; otherwise the list is as it was. This holds for the
    prepared driver and for each iteration of the loop of the unprepared one.
    In that loop, when the first [n] iterations succeed and the next one
    fails (it is iteration [n+1], counting from 1), the driver does not
    report success, exactly [n] descriptors have been appended, exactly
    [n+1] requests have been sent (those of iterations 1 to [n+1]) and the
    outside world is as the failing iteration left it: no later iteration
    is attempted. With no bucket to upload to, nothing is appended. *)
Theorem putObject_appends_iff_upload_succeeds :
  (forall (config : ServerConfig) (curTest : Z) (w : World)
          (bucket : BucketInfo) (rest : list BucketInfo)
          (o1 : Outside) (seed : Z),
     s3verifyBuckets w = bucket :: rest ->
     time_Now_UnixNano (outside w) = (o1, seed) ->
     let object := mkObjectInfo "s3verify/made/put/object"
                     (bytes_of_string (randString 60 seed "")) in
     let fin := mainPutObjectPrepared config curTest w in
     (uploadSucceeds config bucket object o1
      <-> s3verifyObjects (fst fin) = s3verifyObjects w ++ [object]) /\
     (~ uploadSucceeds config bucket object o1
      -> s3verifyObjects (fst fin) = s3verifyObjects w) /\
     (uploadSucceeds config bucket object o1 <-> snd fin = Returned true)) /\
  (forall (config : ServerConfig) (message : string) (bucket : BucketInfo)
          (i : Z) (w : World) (o1 : Outside) (seed : Z),
     time_Now_UnixNano (outside w) = (o1, seed) ->
     let object := mkObjectInfo (unpreparedKey i)
                     (bytes_of_string (randString 60 seed "")) in
     let '(w', _, c) := unpreparedIteration config message bucket i w in
     (uploadSucceeds config bucket object o1
      <-> s3verifyObjects w' = s3verifyObjects w ++ [object]) /\
     (~ uploadSucceeds config bucket object o1
      -> s3verifyObjects w' = s3verifyObjects w) /\
     (uploadSucceeds config bucket object o1 <-> c = Next)) /\
  (forall (config : ServerConfig) (curTest : Z) (w : World)
          (bucket : BucketInfo) (rest : list BucketInfo)
          (n : nat) (wn w' : World) (d : list (option Response))
          (c : control),
     s3verifyBuckets w = bucket :: rest ->
     (n < unpreparedObjects)%nat ->
     iterations config (testMessage curTest) bucket n 0
       (scanBar (testMessage curTest) w) wn ->
     unpreparedIteration config (testMessage curTest) bucket (Z.of_nat n) wn
       = (w', d, c) ->
     c ≠ Next ->
     let fin := mainPutObjectUnPrepared config curTest w in
     snd fin ≠ Returned true /\
     outside (fst fin) = outside w' /\
     (exists objs,
        s3verifyObjects (fst fin) = s3verifyObjects w ++ objs /\
        length objs = n /\ map Key objs = keysFrom 0 n) /\
     (exists reqs,
        requests (trace (fst fin)) = requests (trace w) ++ reqs /\
        length reqs = S n /\ map objectName reqs = keysFrom 0 (S n))) /\
  (forall (config : ServerConfig) (curTest : Z) (w : World),
     s3verifyBuckets w = [] ->
     s3verifyObjects (fst (mainPutObjectPrepared config curTest w))
       = s3verifyObjects w /\
     s3verifyObjects (fst (mainPutObjectUnPrepared config curTest w))
       = s3verifyObjects w).
Proof.
  split_and!; [| | |
    intros config curTest w Hbuckets;
    unfold mainPutObjectPrepared, mainPutObjectUnPrepared;
    by rewrite Hbuckets].
  - intros config curTest w bucket rest o1 seed Hbuckets Hclock object fin.
    destruct (mainPutObjectPrepared_inv config curTest w bucket rest Hbuckets)
      as (o1' & seed' & Hclock' & _ & Hcase).
    rewrite Hclock in Hclock'. injection Hclock' as <- <-.
    fold object fin in Hcase.
    destruct Hcase as [(Hret & Hup & Hobjs) | (Hret & Hup & Hobjs)].
    + by split_and!.
    + split_and!; [|done|done]. split; [done|].
      rewrite Hobjs. intros Heq. symmetry in Heq.
      by apply app_singleton_neq in Heq.
  - intros config message bucket i w o1 seed Hclock object.
    destruct (unpreparedIteration config message bucket i w)
      as [[w' d] c] eqn:Hstep.
    apply unpreparedIteration_inv in Hstep
      as (o1' & seed' & Hclock' & _ & _ & _ & _ & Hcase).
    rewrite Hclock in Hclock'. injection Hclock' as <- <-.
    fold object in Hcase.
    destruct Hcase as [(Hret & Hup & Hobjs) | (Hret & Hup & Hobjs)].
    + by split_and!.
    + split_and!; [|done|done]. split; [done|].
      rewrite Hobjs. intros Heq. symmetry in Heq.
      by apply app_singleton_neq in Heq.
  - intros config curTest w bucket rest n wn w' d c Hbuckets Hlt Hn Hfail Hc fin.
    subst fin. unfold mainPutObjectUnPrepared.
    rewrite Hbuckets. cbn [lookup list_lookup].
    destruct (unpreparedLoop_after _ _ _ _ _ _ _ Hn
                (unpreparedObjects - n) []) as [dn Hloop].
    replace (n + (unpreparedObjects - n))%nat with unpreparedObjects
      in Hloop by lia.
    rewrite Hloop.
    destruct (unpreparedObjects - n)%nat as [|m] eqn:Hm; [lia|].
    cbn [unpreparedLoop]. rewrite Z.add_0_l, Hfail.
    apply iterations_effect in Hn
      as (_ & _ & _ & objs & reqs & Ho & Hk & Hr & Hkr & _).
    pose proof Hfail as Hinv.
    apply unpreparedIteration_inv in Hinv
      as (o1 & seed & _ & Hreqs & _ & _ & _ & Hcase).
    destruct Hcase as [(? & _) | (_ & _ & Hobjs)]; [done|].
    assert (Hlen : length objs = n)
      by (by rewrite <- (length_map Key), Hk, keysFrom_length).
    assert (Hlenr : length reqs = n)
      by (by rewrite <- (length_map objectName), Hkr, keysFrom_length).
    assert (Hfinal :
      s3verifyObjects w' = s3verifyObjects w ++ objs /\
      requests (trace w')
      = requests (trace w) ++ reqs
          ++ [putRequest (Name bucket) (unpreparedKey (Z.of_nat n))
                (bytes_of_string (randString 60 seed ""))]).
    { split.
      - by rewrite Hobjs, Ho.
      - rewrite Hreqs, Hr. cbn. rewrite requests_app. cbn.
        by rewrite app_nil_r, <- app_assoc. }
    destruct Hfinal as [Hfo Hfr].
    destruct c as [|result|msg];
      [done | apply unpreparedIteration_Return in Hfail as -> |];
      cbn [fst snd]; (split_and!; [done | apply outside_runDeferred | |]).
    all: try (exists objs; by rewrite s3verifyObjects_runDeferred).
    all: eexists; rewrite requests_runDeferred; (split; [exact Hfr|]).
    all: rewrite length_app, map_app, keysFrom_snoc, Hkr, Hlenr; cbn.
    all: split; [lia | done].
Qed.

(** C9, as the code has it. With an empty [s3verifyBuckets] both drivers
    panic at [s3verifyBuckets[0]], their first step after the message is
    formatted: the call does not return [false], and the world is as it
    was (nothing reported, no request sent, no list changed). *)
Theorem putObject_empty_buckets_panics
    (config : ServerConfig) (curTest : Z) (w : World) :
  s3verifyBuckets w = [] ->
  mainPutObjectPrepared config curTest w = (w, Panicked index_out_of_range) /\
  mainPutObjectUnPrepared config curTest w = (w, Panicked index_out_of_range).
Proof.
  intros Hbuckets. unfold mainPutObjectPrepared, mainPutObjectUnPrepared.
  by rewrite Hbuckets.
Qed.

(** The 101 keys of the unprepared driver. *)
Lemma keysFrom_0_101 :
  keysFrom 0 unpreparedObjects
  = map (fun i => "s3verify/put/object/" +:+ strconv.Itoa i) (seqZ 0 101).
Proof. vm_compute. reflexivity. Qed.

Lemma keysFrom_0_101_NoDup : NoDup (keysFrom 0 unpreparedObjects).
Proof. refine (bool_decide_unpack _ _). vm_compute. exact I. Qed.

(** C10. Both drivers send every request to [s3verifyBuckets[0]]. The
    prepared driver sends one request, for the key
    "s3verify/made/put/object". The unprepared driver sends the requests of
    its iterations in order, for the keys "s3verify/put/object/0",
    "s3verify/put/object/1", ...; when it reports success it has sent all
    101 of them, for 101 different keys, and appended the 101 objects. *)
Theorem putObject_targets_first_bucket
    (config : ServerConfig) (curTest : Z) (w : World)
    (bucket : BucketInfo) (rest : list BucketInfo) :
  s3verifyBuckets w = bucket :: rest ->
  (exists req,
     requests (trace (fst (mainPutObjectPrepared config curTest w)))
       = requests (trace w) ++ [req] /\
     bucketName req = Name bucket /\
     objectName req = "s3verify/made/put/object") /\
  (let fin := mainPutObjectUnPrepared config curTest w in
   exists (n : nat) (reqs : list Request),
     (n <= unpreparedObjects)%nat /\
     requests (trace (fst fin)) = requests (trace w) ++ reqs /\
     map objectName reqs = keysFrom 0 n /\
     Forall (fun req => bucketName req = Name bucket) reqs /\
     (snd fin = Returned true ->
      n = unpreparedObjects /\
      exists objs,
        s3verifyObjects (fst fin) = s3verifyObjects w ++ objs /\
        map Key objs = keysFrom 0 unpreparedObjects)) /\
  keysFrom 0 unpreparedObjects
    = map (fun i => "s3verify/put/object/" +:+ strconv.Itoa i) (seqZ 0 101) /\
  NoDup (keysFrom 0 unpreparedObjects).
Proof.
  intros Hbuckets. split_and!;
    [| | apply keysFrom_0_101 | apply keysFrom_0_101_NoDup].
  - destruct (mainPutObjectPrepared_inv config curTest w bucket rest Hbuckets)
      as (o1 & seed & _ & Hreqs & _).
    eexists. split; [exact Hreqs|]. done.
  - intros fin. subst fin. unfold mainPutObjectUnPrepared.
    rewrite Hbuckets. cbn [lookup list_lookup].
    destruct (unpreparedLoop config (testMessage curTest) bucket
                unpreparedObjects 0 [] (scanBar (testMessage curTest) w))
      as [[w' d'] c] eqn:Hloop.
    apply unpreparedLoop_inv in Hloop as (n & wn & Hn & Hcase).
    apply iterations_effect in Hn
      as (_ & _ & _ & objs & reqs & Ho & Hk & Hr & Hkr & Hall).
    cbn in Ho, Hr. rewrite requests_app in Hr. cbn in Hr.
    rewrite app_nil_r in Hr.
    destruct Hcase as [(-> & -> & ->) | (Hc & Hlt & d & Hfail)].
    + exists unpreparedObjects, reqs. cbn [fst snd].
      rewrite requests_runDeferred, s3verifyObjects_runDeferred. cbn.
      rewrite !requests_app. cbn. rewrite !app_nil_r.
      split_and!; try done. intros _. split; [done|]. by exists objs.
    + rewrite Z.add_0_l in Hfail. pose proof Hfail as Hinv.
      apply unpreparedIteration_inv in Hinv
        as (o1 & seed & _ & Hreqs & _ & _ & _ & _).
      assert (Hfin : forall out,
        exists (n0 : nat) (reqs0 : list Request),
          (n0 <= unpreparedObjects)%nat /\
          requests (trace (fst (runDeferred d' w', out : outcome bool)))
            = requests (trace w) ++ reqs0 /\
          map objectName reqs0 = keysFrom 0 n0 /\
          Forall (fun req => bucketName req = Name bucket) reqs0).
      { intros out. eexists (S n), (reqs ++ [_]). cbn [fst].
        rewrite requests_runDeferred, Hreqs, Hr, <- app_assoc.
        split_and!; [lia | reflexivity | |].
        - rewrite map_app, Hkr, keysFrom_snoc. cbn. by rewrite Z.add_0_l.
        - apply Forall_app. split; [done|]. by constructor. }
      destruct c as [|result|msg]; [done| |].
      * apply unpreparedIteration_Return in Hfail as ->.
        destruct (Hfin (Returned false)) as (n0 & reqs0 & ? & ? & ? & ?).
        exists n0, reqs0. by split_and!.
      * destruct (Hfin (Panicked msg)) as (n0 & reqs0 & ? & ? & ? & ?).
        exists n0, reqs0. by split_and!.
Qed.

(** A loop that runs to its end is that many successful iterations. *)
Lemma iterations_of_loop (config : ServerConfig) (message : string)
    (bucket : BucketInfo) (count : nat) (i : Z)
    (deferred d' : list (option Response)) (w w' : World) :
  unpreparedLoop config message bucket count i deferred w = (w', d', Next) ->
  iterations config message bucket count i w w'.
Proof.
  intros Hloop. apply unpreparedLoop_inv in Hloop as (n & wn & Hn & Hcase).
  by destruct Hcase as [(_ & -> & ->) | (? & _)].
Qed.

End DriverProperties.

(** ** The scenarios of the specification, on the test doubles *)

(** Third request answered with 403: two objects appended, three requests
    sent, no success reported. First request of the prepared driver
    answered with 403: nothing appended. *)
Lemma putObject_appends_iff_upload_succeeds_witness :
  let w := Stub.world [mkBucketInfo "b1"] in
  let fin := @mainPutObjectUnPrepared Stub.collaborators
               (Stub.failing 2 403) 7 w in
  let fin' := @mainPutObjectPrepared Stub.collaborators
                (Stub.failing 0 403) 7 w in
  snd fin ≠ Returned true /\
  map Key (s3verifyObjects (fst fin))
    = ["s3verify/put/object/0"; "s3verify/put/object/1"] /\
  map objectName (requests (trace (fst fin)))
    = ["s3verify/put/object/0"; "s3verify/put/object/1";
       "s3verify/put/object/2"] /\
  s3verifyObjects (fst fin') = [].
Proof.
  intros w fin fin'.
  destruct (@putObject_appends_iff_upload_succeeds Stub.collaborators)
    as (Hprepared & _ & Hloop & _).
  pose (message := @testMessage Stub.collaborators 7).
  pose (start := scanBar message w).
  pose (two := @unpreparedLoop Stub.collaborators (Stub.failing 2 403)
                 message (mkBucketInfo "b1") 2 0 [] start).
  pose (third := @unpreparedIteration Stub.collaborators (Stub.failing 2 403)
                   message (mkBucketInfo "b1") 2 (fst (fst two))).
  assert (Htwo : two = (fst (fst two), snd (fst two), Next))
    by (vm_compute; reflexivity).
  assert (Hthird : third = (fst (fst third), snd (fst third), Return false))
    by (vm_compute; reflexivity).
  apply iterations_of_loop in Htwo.
  destruct (Hloop (Stub.failing 2 403) 7 w (mkBucketInfo "b1") [] 2%nat
              _ _ _ _ eq_refl ltac:(vm_compute; lia) Htwo Hthird
              ltac:(discriminate))
    as (Hret & _ & (objs & Hobjs & _ & Hkeys) & (reqs & Hreqs & _ & Hnames)).
  split_and!.
  - exact Hret.
  - fold fin in Hobjs. rewrite Hobjs. exact Hkeys.
  - fold fin in Hreqs. rewrite Hreqs. exact Hnames.
  - destruct (Hprepared (Stub.failing 0 403) 7 w (mkBucketInfo "b1") []
                (0%nat, 1) 0 eq_refl eq_refl) as (_ & Hunchanged & _).
    apply Hunchanged.
    rewrite (@uploadSucceeds_iff Stub.collaborators (Stub.failing 0 403)
               (mkBucketInfo "b1") _ (0%nat, 1) (1%nat, 1)
               (fst (Stub.answer 403)) None eq_refl).
    vm_compute. by intros [_ ?].
Defined.

Lemma putObject_empty_buckets_panics_witness :
  @mainPutObjectPrepared Stub.collaborators Stub.allOK 7 (Stub.world [])
    = (Stub.world [], Panicked index_out_of_range) /\
  @mainPutObjectUnPrepared Stub.collaborators Stub.allOK 7 (Stub.world [])
    = (Stub.world [], Panicked index_out_of_range).
Proof.
  apply (@putObject_empty_buckets_panics Stub.collaborators). reflexivity.
Defined.

(** C9 as stated fails: with no bucket the driver does not end in a reported
    failure; it panics, having reported nothing. *)
Lemma putObject_empty_buckets_not_reported :
  snd (@mainPutObjectPrepared Stub.collaborators Stub.allOK 7 (Stub.world []))
    = Panicked "runtime error: index out of range" /\
  trace (fst (@mainPutObjectPrepared Stub.collaborators Stub.allOK 7
                (Stub.world []))) = [] /\
  snd (@mainPutObjectUnPrepared Stub.collaborators Stub.allOK 7 (Stub.world []))
    = Panicked "runtime error: index out of range" /\
  trace (fst (@mainPutObjectUnPrepared Stub.collaborators Stub.allOK 7
                (Stub.world []))) = [].
Proof. vm_compute. repeat split. Qed.

(** Two buckets, every request answered with 200: 101 requests, all for the
    first bucket, and one more for it from the prepared driver. *)
Lemma putObject_targets_first_bucket_witness :
  let w := Stub.world [mkBucketInfo "b1"; mkBucketInfo "b2"] in
  let fin := @mainPutObjectUnPrepared Stub.collaborators Stub.allOK 7 w in
  let fin' := @mainPutObjectPrepared Stub.collaborators Stub.allOK 7 w in
  snd fin = Returned true /\
  length (requests (trace (fst fin))) = 101%nat /\
  Forall (fun req => bucketName req = "b1") (requests (trace (fst fin))) /\
  map Key (s3verifyObjects (fst fin)) = keysFrom 0 101 /\
  map bucketName (requests (trace (fst fin'))) = ["b1"].
Proof.
  intros w fin fin'.
  destruct (@putObject_targets_first_bucket Stub.collaborators Stub.allOK 7 w
              (mkBucketInfo "b1") [mkBucketInfo "b2"] eq_refl)
    as ((req & Hreq & Hbucket & _) & Hloop & _).
  fold fin in Hloop. fold fin' in Hreq. cbv zeta in Hloop.
  destruct Hloop as (n & reqs & _ & Hreqs & Hnames & Hall & Hsuccess).
  assert (Hret : snd fin = Returned true) by (vm_compute; reflexivity).
  destruct (Hsuccess Hret) as (-> & objs & Hobjs & Hkeys).
  split_and!.
  - exact Hret.
  - rewrite Hreqs. change (requests (trace w)) with (@nil Request).
    cbn [app]. by rewrite <- (length_map objectName), Hnames, keysFrom_length.
  - rewrite Hreqs. exact Hall.
  - rewrite Hobjs. exact Hkeys.
  - rewrite Hreq. cbn. by rewrite Hbucket.
Defined.

(** * Further properties of the code *)

(** ** Keys *)

Section KeyProperties.
Context `{Collaborators}.

(** X7. The key of an iteration determines the iteration, for every value
    of the counter and not only below the bound of the loop, and no
    iteration uses the key of the prepared driver. *)
Theorem unpreparedKey_distinct (i j : Z) :
  (unpreparedKey i = unpreparedKey j <-> i = j) /\
  unpreparedKey i ≠ "s3verify/made/put/object".
Proof.
  split.
  - split; [|by intros ->]. unfold unpreparedKey, strconv.Itoa. intros Heq.
    apply (inj (String.append _)) in Heq. by apply (inj pretty) in Heq.
  - unfold unpreparedKey. cbv [String.append]. discriminate.
Qed.

End KeyProperties.

(** ** Acceptance *)

Section AcceptanceProperties.
Context `{Collaborators}.

(** X4. [putObjectVerify] returns [nil] exactly on a response whose headers
    the standard validator accepts, whose status code is the expected one,
    and whose body is there, holds no byte and ends without a read error. *)
Theorem putObjectVerify_accepts_iff (r : Response) (expectedStatusCode : Z) :
  snd (putObjectVerify (Some r) expectedStatusCode) = Returned None <->
  verifyStandardHeaders (Header r) = None /\
  StatusCode r = expectedStatusCode /\
  exists b, Body r = Some b /\ Body.pending b = [] /\ Body.failure b = None.
Proof.
  unfold putObjectVerify. rewrite verifyHeaderPutObject_eq.
  destruct (verifyStandardHeaders (Header r)) as [eh|];
    [split; [done | by intros [? _]]|].
  destruct (verifyStatusPutObject (StatusCode r) expectedStatusCode)
    as [es|] eqn:Hstatus.
  { split; [done|]. intros (_ & Heq & _).
    apply verifyStatusPutObject_None in Heq. congruence. }
  apply verifyStatusPutObject_None in Hstatus.
  destruct (Body r) as [b|]; [|split; [done | by intros (_ & _ & ? & ? & _)]].
  unfold verifyBodyPutObject, ioutil.ReadAll, ReadAll, Body_ioReader,
    Body.drain.
  destruct b as [pending [e|] drained]; cbn [Body.pending Body.failure snd].
  { split; [done|]. by intros (_ & _ & b & [= <-] & _ & ?). }
  case_bool_decide as Hc; cbn [snd].
  - split; [done|]. intros (_ & _ & b & [= <-] & Hp & _). by cbn in Hp.
  - split; [|done]. intros _. split_and!; [done..|].
    eexists. split; [reflexivity|]. cbn. split; [|done].
    by destruct pending; [|contradict Hc].
Qed.

(** X5. The verification uses the body up. When the headers and the status
    code pass and the stream has no read error, a second [putObjectVerify]
    on the response the first one leaves returns [nil], also when the first
    one failed on a body that was not empty; by then the stream has been
    read to its end twice. *)
Theorem putObjectVerify_second_run_passes
    (r : Response) (b : Body.t) (expectedStatusCode : Z) :
  verifyStandardHeaders (Header r) = None ->
  StatusCode r = expectedStatusCode ->
  Body r = Some b ->
  Body.failure b = None ->
  let first := putObjectVerify (Some r) expectedStatusCode in
  let second := putObjectVerify (fst first) expectedStatusCode in
  (snd first = Returned None <-> Body.pending b = []) /\
  snd second = Returned None /\
  fst second
  = Some (mkResponse (StatusCode r) (Header r)
            (Some (Body.mk [] None (S (S (Body.drained b)))))).
Proof.
  intros Hheader Hstatus Hbody Hfailure first second.
  subst first second. unfold putObjectVerify.
  rewrite verifyHeaderPutObject_eq, Hheader, Hstatus,
    verifyStatusPutObject_same, Hbody.
  unfold verifyBodyPutObject, ioutil.ReadAll, ReadAll, Body_ioReader,
    Body.drain.
  rewrite Hfailure.
  case_bool_decide as Hc; cbn [fst snd Header StatusCode Body];
    rewrite verifyHeaderPutObject_eq, Hheader, verifyStatusPutObject_same;
    cbn; (split_and!; [|done..]).
  - split; [done | by intros ?].
  - split; [intros _ | done]. by destruct (Body.pending b); [|contradict Hc].
Qed.

End AcceptanceProperties.

Lemma putObjectVerify_second_run_passes_witness :
  let r := mkResponse 200 Stub.standardHeaders
             (Some (Body.mk (bytes_of_string "oops") None 0)) in
  let first := @putObjectVerify Stub.collaborators (Some r) 200 in
  snd first
  = Returned (Some (errorString
      "Unexpected Body Recieved: expected empty body but recieved: oops")) /\
  snd (@putObjectVerify Stub.collaborators (fst first) 200) = Returned None.
Proof.
  intros r first.
  destruct (@putObjectVerify_second_run_passes Stub.collaborators r
              (Body.mk (bytes_of_string "oops") None 0) 200
              eq_refl eq_refl eq_refl eq_refl) as (_ & Hsecond & _).
  split; [vm_compute; reflexivity | exact Hsecond].
Defined.

(** ** The headers of the request *)

Section HeaderProperties.
Context `{Collaborators}.

(** X9. A request built by [newPutObjectReq] has exactly three headers, each
    with a single value: the MD5 digest under the canonical name
    [Content-Md5], the SHA-256 digest under [X-Amz-Content-Sha256], and
    [appUserAgent] under [User-Agent]. *)
Theorem newPutObjectReq_headers_exact
    (b o : string) (P : bytes) (req : Request) :
  newPutObjectReq b o P = (req, None) ->
  dom (customHeader req)
    = ({["Content-Md5"; "X-Amz-Content-Sha256"; "User-Agent"]} : gset string) /\
  customHeader req !! "Content-Md5"
    = Some [base64.EncodeToString (md5.Sum P)] /\
  customHeader req !! "X-Amz-Content-Sha256"
    = Some [hex.EncodeToString (sha256.Sum P)] /\
  customHeader req !! "User-Agent" = Some [appUserAgent] /\
  http.Get "User-Agent" (customHeader req) = appUserAgent.
Proof.
  rewrite newPutObjectReq_eq. intros [= <-].
  cbn [customHeader putRequest]. unfold http.Set_.
  change (http.CanonicalMIMEHeaderKey "User-Agent") with "User-Agent".
  change (http.CanonicalMIMEHeaderKey "X-Amz-Content-Sha256")
    with "X-Amz-Content-Sha256".
  change (http.CanonicalMIMEHeaderKey "Content-MD5") with "Content-Md5".
  split_and!.
  - rewrite !dom_insert_L, dom_empty_L. set_solver.
  - by rewrite !lookup_insert_ne, lookup_insert_eq by done.
  - by rewrite lookup_insert_ne, lookup_insert_eq by done.
  - by rewrite lookup_insert_eq.
  - unfold http.Get.
    change (http.CanonicalMIMEHeaderKey "User-Agent") with "User-Agent".
    by rewrite lookup_insert_eq.
Qed.

End HeaderProperties.

Lemma newPutObjectReq_headers_exact_witness :
  let req := fst (@newPutObjectReq Stub.collaborators "b1" "k1" []) in
  dom (customHeader req)
    = ({["Content-Md5"; "X-Amz-Content-Sha256"; "User-Agent"]} : gset string) /\
  customHeader req !! "Content-Md5" = Some ["1B2M2Y8AsgTpgAmY7PhCfg=="] /\
  customHeader req !! "User-Agent" = Some ["s3verify (stub)"].
Proof.
  intros req.
  destruct (@newPutObjectReq_headers_exact Stub.collaborators "b1" "k1" [] req)
    as (Hdom & Hmd5 & _ & Hagent & _); [vm_compute; reflexivity|].
  split; [exact Hdom|]. split; [|exact Hagent].
  rewrite Hmd5. vm_compute. reflexivity.
Defined.

(** ** What the drivers report, close and keep *)

Section DriverTraces.
Context `{Collaborators}.


Lemma prints_app (t1 t2 : list Event) :
  prints (t1 ++ t2) = prints t1 ++ prints t2.
Proof. apply omap_app. Qed.

Lemma closes_app (t1 t2 : list Event) :
  closes (t1 ++ t2) = closes t1 ++ closes t2.
Proof. apply omap_app. Qed.

Lemma spins_app (t1 t2 : list Event) :
  spins (t1 ++ t2) = spins t1 ++ spins t2.
Proof. apply omap_app. Qed.

Lemma prints_CloseResponse (deferred : list (option Response)) :
  prints (map CloseResponse deferred) = [].
Proof. induction deferred as [|res deferred IH]; [done | exact IH]. Qed.

Lemma spins_CloseResponse (deferred : list (option Response)) :
  spins (map CloseResponse deferred) = [].
Proof. induction deferred as [|res deferred IH]; [done | exact IH]. Qed.

Lemma closes_CloseResponse (deferred : list (option Response)) :
  closes (map CloseResponse deferred) = deferred.
Proof.
  induction deferred as [|res deferred IH]; [done|].
  cbn. f_equal. exact IH.
Qed.

(** The events of one pass through the body of the loop. *)
Lemma unpreparedIteration_events (config : ServerConfig) (message : string)
    (bucket : BucketInfo) (i : Z) (w w' : World)
    (d : list (option Response)) (c : control) :
  unpreparedIteration config message bucket i w = (w', d, c) ->
  exists evs,
    trace w' = trace w ++ evs /\
    closes evs = [] /\
    length (requests evs) = 1%nat /\
    Forall (eq message) (spins evs) /\
    match c with
    | Next => prints evs = [] /\ length d = 1%nat
    | Return result =>
        result = false /\ (length d <= 1)%nat /\
        exists e, prints evs = [(message, Some e)]
    | Panic _ => prints evs = [] /\ length d = 1%nat
    end.
Proof.
  unfold unpreparedIteration, freshString, doExecRequest.
  cbn [outside scanBar log].
  destruct (time_Now_UnixNano (outside w)) as [o1 seed].
  rewrite newPutObjectReq_eq. cbn [outside with_outside].
  destruct (execRequest config "PUT" _ o1) as [o2 [res [e|]]].
  { intros [= <- <- <-]. eexists.
    cbn [trace log printMessage scanBar with_outside].
    rewrite <- !app_assoc. split; [reflexivity|]. cbn.
    split_and!; [done | done | by repeat constructor | done | lia |].
    by exists e. }
  destruct (putObjectVerify res http.StatusOK) as [res' [[e|]|msg]];
    intros [= <- <- <-]; eexists;
    cbn [trace log printMessage scanBar appendObject with_outside];
    rewrite <- ?app_assoc; (split; [by cbn|]); cbn;
    (split_and!; [done | done | by repeat constructor | ..]); try done.
  by exists e.
Qed.

(** The events of a run of the loop: no response is closed inside the loop,
    each iteration sends one request, and at most the last request has no
    deferred [closeResponse]. *)
Lemma unpreparedLoop_events (config : ServerConfig) (message : string)
    (bucket : BucketInfo) (count : nat) :
  forall (i : Z) (deferred : list (option Response)) (w w' : World)
         (d' : list (option Response)) (c : control),
  unpreparedLoop config message bucket count i deferred w = (w', d', c) ->
  exists evs dnew,
    trace w' = trace w ++ evs /\
    d' = dnew ++ deferred /\
    closes evs = [] /\
    Forall (eq message) (spins evs) /\
    (length dnew <= length (requests evs) <= S (length dnew))%nat /\
    (length (requests evs) <= count)%nat /\
    match c with
    | Next => prints evs = [] /\ length dnew = count
    | Return result => result = false /\ exists e, prints evs = [(message, Some e)]
    | Panic _ => prints evs = [] /\ length dnew = length (requests evs)
    end.
Proof.
  induction count as [|count IH]; intros i deferred w w' d' c Hloop.
  - injection Hloop as <- <- <-. exists [], []. rewrite app_nil_r.
    cbn. split_and!; try done; lia.
  - cbn [unpreparedLoop] in Hloop.
    destruct (unpreparedIteration config message bucket i w)
      as [[w1 d] c1] eqn:Hstep.
    apply unpreparedIteration_events in Hstep
      as (evs1 & Htrace1 & Hcloses1 & Hreqs1 & Hspins1 & Hc1).
    destruct c1 as [|result|msg].
    + destruct Hc1 as [Hprints1 Hd].
      apply IH in Hloop
        as (evs & dnew & Htrace & -> & Hcloses & Hspins & Hlen & Hcount & Hc).
      exists (evs1 ++ evs), (dnew ++ d).
      rewrite Htrace, Htrace1, closes_app, spins_app, prints_app, requests_app,
        !length_app, Hcloses1, Hcloses, Hprints1, Hreqs1, Hd, <- !app_assoc.
      split_and!; try done; try lia; [by apply Forall_app|].
      destruct c as [|result|msg]; [| exact Hc |].
      * destruct Hc as [-> Hdnew]. split; [done | lia].
      * destruct Hc as [-> Hdnew]. split; [done | lia].
    + injection Hloop as <- <- <-. destruct Hc1 as (-> & Hd & e & Hprints1).
      exists evs1, d. rewrite Hreqs1.
      split_and!; try done; try lia. by exists e.
    + injection Hloop as <- <- <-. destruct Hc1 as [Hprints1 Hd].
      exists evs1, d. rewrite Hreqs1, Hd.
      split_and!; try done; lia.
Qed.

(** X8. The prepared driver, given what the transport answers to its one
    request: a transport error is reported as it is and the driver returns
    [false] without closing anything; otherwise the response is closed once,
    as the verification leaves it, and the driver returns [true] with a
    [nil] report when the verification returns [nil], returns [false] with
    the error of the verification when it returns one, and panics without
    any report when the verification panics. *)
Theorem mainPutObjectPrepared_outcome
    (config : ServerConfig) (curTest : Z) (w : World)
    (bucket : BucketInfo) (rest : list BucketInfo)
    (o1 o2 : Outside) (seed : Z) (res : option Response) (err : option Error) :
  s3verifyBuckets w = bucket :: rest ->
  time_Now_UnixNano (outside w) = (o1, seed) ->
  execRequest config "PUT"
    (fst (newPutObjectReq (Name bucket) "s3verify/made/put/object"
            (bytes_of_string (randString 60 seed "")))) o1
    = (o2, (res, err)) ->
  let verdict := putObjectVerify res http.StatusOK in
  let fin := mainPutObjectPrepared config curTest w in
  snd fin
    = match err, snd verdict with
      | Some _, _ => Returned false
      | None, Returned None => Returned true
      | None, Returned (Some _) => Returned false
      | None, Panicked msg => Panicked msg
      end /\
  outside (fst fin) = o2 /\
  exists evs,
    trace (fst fin) = trace w ++ evs /\
    prints evs
      = match err, snd verdict with
        | Some e, _ => [(testMessage curTest, Some e)]
        | None, Returned e => [(testMessage curTest, e)]
        | None, Panicked _ => []
        end /\
    closes evs = match err with Some _ => [] | None => [fst verdict] end.
Proof.
  intros Hbuckets Hclock Hexec verdict fin. subst verdict fin.
  rewrite newPutObjectReq_eq in Hexec. cbn [fst] in Hexec.
  unfold mainPutObjectPrepared, freshString, doExecRequest.
  rewrite Hbuckets. cbn [lookup list_lookup outside scanBar log].
  rewrite Hclock, newPutObjectReq_eq.
  cbn [outside with_outside log scanBar Key Body_]. rewrite Hexec.
  destruct err as [e|].
  { cbn [fst snd]. do 2 (split; [by cbn|]).
    eexists. cbn [trace log printMessage scanBar with_outside].
    rewrite <- !app_assoc. split; [reflexivity|]. by cbn. }
  destruct (putObjectVerify res http.StatusOK) as [res' [[e|]|msg]];
    cbn [fst snd]; rewrite outside_runDeferred;
    do 2 (split; [by cbn|]); eexists; rewrite runDeferred_eq;
    cbn [trace log printMessage scanBar appendObject with_outside map];
    rewrite <- ?app_assoc; (split; [by cbn|]); by cbn.
Qed.

Ltac nothing_appended :=
  exists []; rewrite app_nil_r; split; [done | cbn; lia].

(** The other lists and the bucket list through the prepared driver. *)
Lemma mainPutObjectPrepared_frame (config : ServerConfig) (curTest : Z)
    (w : World) :
  let fin := mainPutObjectPrepared config curTest w in
  preparedObjects (fst fin) = preparedObjects w /\
  copyObjects (fst fin) = copyObjects w /\
  s3verifyBuckets (fst fin) = s3verifyBuckets w /\
  exists objs,
    s3verifyObjects (fst fin) = s3verifyObjects w ++ objs /\
    (length objs <= 1)%nat.
Proof.
  intros fin. subst fin.
  unfold mainPutObjectPrepared, freshString, doExecRequest.
  destruct (s3verifyBuckets w !! 0%nat) as [bucket|];
    [|do 3 (split; [by cbn|]); nothing_appended].
  cbn [outside scanBar log].
  destruct (time_Now_UnixNano (outside w)) as [o1 seed].
  rewrite newPutObjectReq_eq. cbn [outside with_outside log scanBar].
  destruct (execRequest config "PUT" _ o1) as [o2 [res [e|]]].
  { cbn. do 3 (split; [by cbn|]). nothing_appended. }
  destruct (putObjectVerify res http.StatusOK) as [res' [[e|]|msg]];
    cbn [fst]; rewrite runDeferred_eq; cbn; do 3 (split; [by cbn|]);
    [nothing_appended | | nothing_appended].
  eexists [_]. split; [reflexivity | done].
Qed.

Lemma mainPutObjectUnPrepared_frame (config : ServerConfig) (curTest : Z)
    (w : World) :
  keepsLists unpreparedObjects w (mainPutObjectUnPrepared config curTest w).
Proof.
  unfold keepsLists, mainPutObjectUnPrepared.
  destruct (s3verifyBuckets w !! 0%nat) as [bucket|];
    [|do 3 (split; [by cbn|]); nothing_appended].
  destruct (unpreparedLoop config (testMessage curTest) bucket
              unpreparedObjects 0 [] (scanBar (testMessage curTest) w))
    as [[w' d'] c] eqn:Hloop.
  apply unpreparedLoop_inv in Hloop as (n & wn & Hn & Hcase).
  apply iterations_effect in Hn
    as (Hb & Hp & Hc & objs & reqs & Ho & Hk & _).
  assert (Hlen : length objs = n)
    by (by rewrite <- (length_map Key), Hk, keysFrom_length).
  cbn in Hb, Hp, Hc, Ho.
  destruct Hcase as [(-> & -> & ->) | (Hne & Hlt & d & Hfail)].
  - cbn [fst]. rewrite runDeferred_eq. cbn.
    do 3 (split; [done|]). exists objs. split; [done | lia].
  - apply unpreparedIteration_inv in Hfail
      as (o1 & seed & _ & _ & Hb' & Hp' & Hc' & Hcase).
    destruct Hcase as [(? & _) | (_ & _ & Ho')]; [done|].
    assert (Hfin : forall out : outcome bool,
              keepsLists unpreparedObjects w (runDeferred d' w', out)).
    { intros out. unfold keepsLists. cbn [fst]. rewrite runDeferred_eq. cbn.
      split_and!; [congruence..|]. exists objs. split; [congruence | lia]. }
    destruct c as [|result|msg]; [done | apply Hfin..].
Qed.

(** X1. Whatever a driver does and however it ends, it leaves
    [preparedObjects], [copyObjects] and [s3verifyBuckets] as they were, and
    it only appends to [s3verifyObjects]: at most one object for the
    prepared driver and at most 101 for the unprepared one. *)
Theorem drivers_keep_lists (config : ServerConfig) (curTest : Z) (w : World) :
  keepsLists 1 w (mainPutObjectPrepared config curTest w) /\
  keepsLists unpreparedObjects w (mainPutObjectUnPrepared config curTest w).
Proof.
  split; [apply mainPutObjectPrepared_frame | apply mainPutObjectUnPrepared_frame].
Qed.

Lemma mainPutObjectPrepared_events (config : ServerConfig) (curTest : Z)
    (w : World) :
  let fin := mainPutObjectPrepared config curTest w in
  reportsOnce (testMessage curTest) w fin /\ closesAtExit w fin.
Proof.
  intros fin. subst fin. unfold reportsOnce, closesAtExit.
  unfold mainPutObjectPrepared, freshString, doExecRequest.
  destruct (s3verifyBuckets w !! 0%nat) as [bucket|].
  2:{ split; [exists [] | exists [], []]; cbn; rewrite app_nil_r;
      split_and!; try done; lia. }
  cbn [outside scanBar log].
  destruct (time_Now_UnixNano (outside w)) as [o1 seed].
  rewrite newPutObjectReq_eq. cbn [outside with_outside log scanBar].
  destruct (execRequest config "PUT" _ o1) as [o2 [res [e|]]].
  { cbn [fst snd trace log printMessage scanBar with_outside Key Body_].
    rewrite <- !app_assoc. cbn [app]. split.
    - eexists. split; [reflexivity|]. cbn.
      split; [by repeat constructor | by exists e].
    - eexists _, []. cbn [map]. rewrite app_nil_r.
      split; [reflexivity|]. cbn. split_and!; try done; lia. }
  destruct (putObjectVerify res http.StatusOK) as [res' [[e|]|msg]];
    cbn [fst snd]; rewrite runDeferred_eq;
    cbn [trace log printMessage scanBar appendObject with_outside map
         Key Body_];
    rewrite <- !app_assoc; cbn [app];
    (split;
     [ eexists; (split; [reflexivity|]); cbn;
       (split; [by repeat constructor|])
     | match goal with
       | |- exists evs deferred, trace w ++ ?l = _ /\ _ =>
           exists (removelast l), [res']
       end;
       (split; [reflexivity|]); cbn; split_and!; try done; lia ]).
  - by exists e.
  - done.
  - done.
Qed.

Lemma mainPutObjectUnPrepared_events (config : ServerConfig) (curTest : Z)
    (w : World) :
  let fin := mainPutObjectUnPrepared config curTest w in
  reportsOnce (testMessage curTest) w fin /\ closesAtExit w fin.
Proof.
  intros fin. subst fin. unfold reportsOnce, closesAtExit.
  unfold mainPutObjectUnPrepared.
  destruct (s3verifyBuckets w !! 0%nat) as [bucket|].
  2:{ split; [exists [] | exists [], []]; cbn; rewrite app_nil_r;
      split_and!; try done; lia. }
  destruct (unpreparedLoop config (testMessage curTest) bucket
              unpreparedObjects 0 [] (scanBar (testMessage curTest) w))
    as [[w' d'] c] eqn:Hloop.
  apply unpreparedLoop_events in Hloop
    as (evs & dnew & Htrace & -> & Hcloses & Hspins & Hlen & Hcount & Hc).
  rewrite app_nil_r. cbn [trace scanBar log] in Htrace.
  set (message := testMessage curTest) in *.
  assert (Hspin : forall tail,
            Forall (eq message) (spins tail) ->
            Forall (eq message) (spins ([ScanBar message] ++ evs ++ tail))).
  { intros tail Htail. rewrite !spins_app. cbn.
    constructor; [done|]. by apply Forall_app. }
  destruct c as [|result|msg]; cbn [fst snd]; rewrite runDeferred_eq;
    cbn [trace log printMessage scanBar]; rewrite Htrace.
  - destruct Hc as [Hprints Hdnew]. split.
    + exists ([ScanBar message] ++ evs
              ++ [ScanBar message; PrintMessage message None]
              ++ map CloseResponse dnew).
      split; [by rewrite <- !app_assoc|]. split.
      * apply Hspin. rewrite spins_app, spins_CloseResponse. cbn.
        by repeat constructor.
      * rewrite !prints_app, Hprints, prints_CloseResponse. by cbn.
    + exists ([ScanBar message] ++ evs
              ++ [ScanBar message; PrintMessage message None]), dnew.
      split; [by rewrite <- !app_assoc|].
      rewrite !closes_app, !requests_app, Hcloses. cbn.
      rewrite app_nil_r. split_and!; try done; lia.
  - destruct Hc as (-> & e & Hprints). split.
    + exists ([ScanBar message] ++ evs ++ map CloseResponse dnew).
      split; [by rewrite <- !app_assoc|]. split.
      * apply Hspin. rewrite spins_CloseResponse. constructor.
      * rewrite !prints_app, Hprints, prints_CloseResponse. cbn. by exists e.
    + exists ([ScanBar message] ++ evs), dnew.
      split; [by rewrite <- !app_assoc|].
      rewrite !closes_app, !requests_app, Hcloses. cbn.
      split_and!; try done; lia.
  - destruct Hc as [Hprints Hdnew]. split.
    + exists ([ScanBar message] ++ evs ++ map CloseResponse dnew).
      split; [by rewrite <- !app_assoc|]. split.
      * apply Hspin. rewrite spins_CloseResponse. constructor.
      * rewrite !prints_app, Hprints, prints_CloseResponse. by cbn.
    + exists ([ScanBar message] ++ evs), dnew.
      split; [by rewrite <- !app_assoc|].
      rewrite !closes_app, !requests_app, Hcloses. cbn.
      split_and!; try done; lia.
Qed.

(** X2. Both drivers show the one status line of the test in every progress
    and report call. A driver that returns has called [printMessage] exactly
    once, with no error when it returns [true] and with an error when it
    returns [false]; a driver that panics has not called it. *)
Theorem drivers_report_once (config : ServerConfig) (curTest : Z) (w : World) :
  reportsOnce (testMessage curTest) w
    (mainPutObjectPrepared config curTest w) /\
  reportsOnce (testMessage curTest) w
    (mainPutObjectUnPrepared config curTest w).
Proof.
  split; [apply mainPutObjectPrepared_events
         | apply mainPutObjectUnPrepared_events].
Qed.

(** X3. Neither driver closes a response before it has sent its last
    request: the deferred [closeResponse] calls are the last steps of the
    run, so the unprepared driver holds every response it received until the
    loop is over. Each request but possibly the last has its response
    closed, and the last one lacks it only in a run that returns [false]. *)
Theorem drivers_close_at_exit (config : ServerConfig) (curTest : Z) (w : World) :
  closesAtExit w (mainPutObjectPrepared config curTest w) /\
  closesAtExit w (mainPutObjectUnPrepared config curTest w).
Proof.
  split; [apply mainPutObjectPrepared_events
         | apply mainPutObjectUnPrepared_events].
Qed.

(** The requests of a run of successful iterations are those of the objects
    it appended. *)
Lemma iterations_uploads (config : ServerConfig) (message : string)
    (bucket : BucketInfo) (n : nat) (i : Z) (w wn : World) :
  iterations config message bucket n i w wn ->
  exists objs,
    length objs = n /\
    s3verifyObjects wn = s3verifyObjects w ++ objs /\
    requests (trace wn)
      = requests (trace w)
        ++ map (fun obj => putRequest (Name bucket) (Key obj) (Body_ obj)) objs.
Proof.
  induction 1 as [i w | n i w w1 d w2 Hstep Hrest IH].
  - exists []. by rewrite !app_nil_r.
  - apply unpreparedIteration_inv in Hstep
      as (o1 & seed & _ & Hreqs & _ & _ & _ & Hcase).
    destruct Hcase as [(_ & _ & Hobjs) | (Hne & _)]; [|done].
    destruct IH as (objs & Hlen & Ho & Hr).
    eexists (_ :: objs). split_and!.
    + cbn. by rewrite Hlen.
    + rewrite Ho, Hobjs, <- app_assoc. reflexivity.
    + rewrite Hr, Hreqs, <- app_assoc. reflexivity.
Qed.

(** X6. What a driver appends to [s3verifyObjects] it has uploaded: with
    [s3verifyBuckets[0]] as the bucket, the requests of a run are the
    requests [newPutObjectReq] builds for the appended objects (their keys,
    and the lengths and digests of their bodies), in the order in which the
    objects stand in the list, and then at most one request whose object
    was not appended; a run that returns [true] has no such request. *)
Theorem drivers_upload_what_they_append
    (config : ServerConfig) (curTest : Z) (w : World)
    (bucket : BucketInfo) (rest : list BucketInfo) :
  s3verifyBuckets w = bucket :: rest ->
  uploadsWhatItAppends bucket w (mainPutObjectPrepared config curTest w) /\
  uploadsWhatItAppends bucket w (mainPutObjectUnPrepared config curTest w).
Proof.
  intros Hbuckets. unfold uploadsWhatItAppends.
  split.
  - destruct (mainPutObjectPrepared_inv config curTest w bucket rest Hbuckets)
      as (o1 & seed & _ & Hreqs & Hcase).
    cbv zeta in Hreqs, Hcase.
    destruct Hcase as [(Hret & _ & Hobjs) | (Hret & _ & Hobjs)].
    + eexists [_], []. rewrite Hobjs, Hreqs. cbn [map app].
      rewrite newPutObjectReq_eq. split_and!; try done. cbn. lia.
    + eexists [], [_]. rewrite Hobjs, Hreqs, app_nil_r. cbn [map app].
      split_and!; try done.
  - unfold mainPutObjectUnPrepared. rewrite Hbuckets. cbn [lookup list_lookup].
    destruct (unpreparedLoop config (testMessage curTest) bucket
                unpreparedObjects 0 [] (scanBar (testMessage curTest) w))
      as [[w' d'] c] eqn:Hloop.
    apply unpreparedLoop_inv in Hloop as (n & wn & Hn & Hcase).
    apply iterations_uploads in Hn as (objs & Hlen & Ho & Hr).
    cbn in Ho, Hr. rewrite requests_app in Hr. cbn in Hr.
    rewrite app_nil_r in Hr.
    destruct Hcase as [(-> & -> & ->) | (Hc & Hlt & d & Hfail)].
    + exists objs, []. cbn [fst snd].
      rewrite requests_runDeferred, s3verifyObjects_runDeferred. cbn.
      rewrite !requests_app. cbn.
      rewrite !app_nil_r, Hr. split_and!; try done. cbn. lia.
    + pose proof Hfail as Hinv.
      apply unpreparedIteration_inv in Hinv
        as (o1 & seed & _ & Hreqs & _ & _ & _ & Hcase).
      destruct Hcase as [(? & _) | (_ & _ & Hobjs)]; [done|].
      assert (Hfin : forall out : outcome bool,
        out ≠ Returned true ->
        exists objs0 extra,
          s3verifyObjects (fst (runDeferred d' w', out))
            = s3verifyObjects w ++ objs0 /\
          requests (trace (fst (runDeferred d' w', out)))
            = requests (trace w)
              ++ map (fun obj => fst (newPutObjectReq (Name bucket) (Key obj)
                                        (Body_ obj))) objs0
              ++ extra /\
          (length extra <= 1)%nat /\
          (snd (runDeferred d' w', out) = Returned true -> extra = [])).
      { intros out Hout. eexists objs, [_]. cbn [fst snd].
        rewrite requests_runDeferred, s3verifyObjects_runDeferred.
        rewrite Hobjs, Ho, Hreqs, Hr, <- app_assoc.
        split_and!; try done. }
      destruct c as [|result|msg]; [done | | by apply Hfin].
      apply unpreparedIteration_Return in Hfail as ->. by apply Hfin.
Qed.

End DriverTraces.

Lemma mainPutObjectPrepared_outcome_witness :
  let fin := @mainPutObjectPrepared Stub.collaborators (Stub.failing 0 403) 7
               (Stub.world [mkBucketInfo "b1"]) in
  snd fin = Returned false /\
  prints (trace (fst fin))
  = [("[07/20] PutObject:",
      Some (errorString
              "Unexpected Response Status Code: wanted 200, got 403"))] /\
  closes (trace (fst fin))
  = [Some (mkResponse 403 Stub.standardHeaders (Some Stub.emptyBody))].
Proof.
  intros fin.
  destruct (@mainPutObjectPrepared_outcome Stub.collaborators
              (Stub.failing 0 403) 7 (Stub.world [mkBucketInfo "b1"])
              (mkBucketInfo "b1") [] (0%nat, 1) (1%nat, 1) 0
              (fst (Stub.answer 403)) None eq_refl eq_refl eq_refl)
    as (Hret & _ & evs & Htrace & Hprints & Hcloses).
  fold fin in Hret, Htrace. cbn [Stub.world trace app] in Htrace.
  rewrite Htrace, Hprints, Hcloses. split; [exact Hret|].
  split; vm_compute; reflexivity.
Defined.

Lemma drivers_upload_what_they_append_witness :
  let w := Stub.world [mkBucketInfo "b1"] in
  s3verifyBuckets w = [mkBucketInfo "b1"] /\
  @uploadsWhatItAppends Stub.collaborators (mkBucketInfo "b1") w
    (@mainPutObjectPrepared Stub.collaborators Stub.allOK 7 w) /\
  @uploadsWhatItAppends Stub.collaborators (mkBucketInfo "b1") w
    (@mainPutObjectUnPrepared Stub.collaborators (Stub.failing 2 403) 7 w).
Proof.
  intros w. split; [reflexivity|].
  split.
  - apply (@drivers_upload_what_they_append Stub.collaborators Stub.allOK 7 w
             (mkBucketInfo "b1") [] eq_refl).
  - apply (@drivers_upload_what_they_append Stub.collaborators
             (Stub.failing 2 403) 7 w (mkBucketInfo "b1") [] eq_refl).
Defined.

(** ** The error messages and the digest headers *)

Lemma append_cons (c : ascii) (s t : string) :
  String c s +:+ t = String c (s +:+ t).
Proof. reflexivity. Qed.

Lemma append_nil_l (t : string) : "" +:+ t = t.
Proof. reflexivity. Qed.

Lemma has_char_pretty_N_go (c : ascii) (x : N) (s : string) :
  (forall d, (d < 10)%N -> pretty_N_char d ≠ c) ->
  has_char c s = false -> has_char c (pretty_N_go x s) = false.
Proof.
  intros Hdigit. revert s.
  induction (N.lt_wf_0 x) as [x _ IH]; intros s Hs.
  assert (x = 0 \/ 0 < x)%N as [->|Hpos] by lia.
  - by rewrite pretty_N_go_0.
  - rewrite pretty_N_go_step by done. apply IH.
    + by apply N.div_lt.
    + cbn [has_char]. rewrite Hs, orb_false_r.
      apply bool_decide_eq_false. intros Heq.
      by apply (Hdigit (x `mod` 10)%N); [apply N.mod_lt|].
Qed.

(** A decimal numeral has no comma in it. *)
Lemma has_char_Itoa (i : Z) : has_char "," (strconv.Itoa i) = false.
Proof.
  assert (Hdigit : forall d, (d < 10)%N -> pretty_N_char d ≠ ","%char).
  { intros d _. unfold pretty_N_char. by repeat case_match. }
  assert (HN : forall p, has_char "," (pretty (Npos p)) = false).
  { intros p. unfold pretty, pretty_N. rewrite decide_False by done.
    by apply has_char_pretty_N_go. }
  unfold strconv.Itoa, pretty, pretty_Z. destruct i as [|p|p].
  - reflexivity.
  - apply HN.
  - rewrite append_cons. cbn [has_char].
    change ("" +:+ pretty p) with (pretty (Npos p)). by rewrite HN.
Qed.

(** Two texts cut at their first comma are equal piece by piece. *)
Lemma append_comma_inj (s1 s2 t1 t2 : string) :
  has_char "," s1 = false -> has_char "," s2 = false ->
  s1 +:+ String "," t1 = s2 +:+ String "," t2 ->
  s1 = s2 /\ t1 = t2.
Proof.
  revert s2. induction s1 as [|c s1 IH]; intros [|c2 s2] H1 H2 Heq;
    rewrite ?append_cons, ?append_nil_l in Heq.
  - by injection Heq as ->.
  - injection Heq as <- _.
    cbn in H2. by rewrite bool_decide_eq_true_2 in H2.
  - injection Heq as -> _.
    cbn in H1. by rewrite bool_decide_eq_true_2 in H1.
  - injection Heq as -> Heq.
    cbn in H1, H2. apply orb_false_iff in H1 as [_ H1].
    apply orb_false_iff in H2 as [_ H2].
    by destruct (IH s2 H1 H2 Heq) as [-> ->].
Qed.

(** X12. Two status checks give the same result exactly when both pass or
    both are about the same pair of codes: the error of a mismatch
    determines the expected and the actual status code. *)
Theorem verifyStatusPutObject_result_inj (resp expected resp' expected' : Z) :
  verifyStatusPutObject resp expected = verifyStatusPutObject resp' expected'
  <-> (resp = expected /\ resp' = expected')
      \/ (resp = resp' /\ expected = expected').
Proof.
  split.
  - unfold verifyStatusPutObject.
    do 2 case_bool_decide; intros Heq; try done.
    + right. injection Heq as Heq.
      apply (inj (String.append _)) in Heq.
      change (?e +:+ ", got " +:+ ?a) with (e +:+ String "," (" got " +:+ a))
        in Heq.
      apply append_comma_inj in Heq as [He Ha]; [|apply has_char_Itoa..].
      apply (inj (String.append _)) in Ha.
      unfold fmt.v_int in *. split; by apply (inj strconv.Itoa).
    + left. split; lia.
  - intros [[-> ->] | [-> ->]]; [|done].
    by rewrite !verifyStatusPutObject_same.
Qed.

Lemma string_of_bytes_inj (b1 b2 : bytes) :
  string_of_bytes b1 = string_of_bytes b2 -> b1 = b2.
Proof.
  intros Heq. apply (f_equal bytes_of_string) in Heq.
  unfold bytes_of_string, string_of_bytes in Heq.
  by rewrite !String.list_byte_of_string_of_list_byte in Heq.
Qed.

(** X11. On streams that can be read to their end, two body checks give the
    same result exactly when the streams held the same bytes: the error of
    the body check determines the content that was received. *)
Theorem verifyBodyPutObject_result_inj
    `{ioReader R1} `{ioReader R2} (rd1 rd1' : R1) (rd2 rd2' : R2)
    (content1 content2 : bytes) :
  ReadAll rd1 = (rd1', (content1, None)) ->
  ReadAll rd2 = (rd2', (content2, None)) ->
  snd (verifyBodyPutObject (Some rd1)) = snd (verifyBodyPutObject (Some rd2))
  <-> content1 = content2.
Proof.
  intros Hread1 Hread2.
  rewrite (verifyBodyPutObject_readable _ _ _ Hread1),
    (verifyBodyPutObject_readable _ _ _ Hread2). cbn [snd].
  split; [|by intros ->].
  do 2 case_bool_decide; intros Heq; try done.
  - injection Heq as Heq. apply (inj (String.append _)) in Heq.
    by apply string_of_bytes_inj.
  - destruct content1, content2; done.
Qed.

(** ** The width of the digest headers *)

Lemma hex_EncodeToString_length (src : bytes) :
  String.length (hex.EncodeToString src) = (2 * length src)%nat.
Proof. induction src as [|v src IH]; cbn; [done | rewrite IH; lia]. Qed.

(** Induction over a byte slice three bytes at a time. *)
Lemma list_ind3 {A} (P : list A -> Prop) :
  P [] -> (forall a, P [a]) -> (forall a b, P [a; b]) ->
  (forall a b c l, P l -> P (a :: b :: c :: l)) ->
  forall l, P l.
Proof.
  intros H0 H1 H2 H3 l.
  cut (P l /\ (forall a, P (a :: l)) /\ (forall a b, P (a :: b :: l)));
    [by intros [? _]|].
  induction l as [|x l (IHl & IH1 & IH2)]; [done|].
  split_and!; [done | done |]. intros a b. by apply H3.
Qed.

Lemma base64_EncodeToString_length (src : bytes) :
  String.length (base64.EncodeToString src)
  = (4 * ((length src + 2) / 3))%nat.
Proof.
  induction src as [|a|a b|a b c src IH] using list_ind3; [done..|].
  cbn [base64.EncodeToString String.length length]. rewrite IH.
  replace (S (S (S (length src))) + 2)%nat with (1 * 3 + (length src + 2))%nat
    by lia.
  rewrite Nat.div_add_l by done. lia.
Qed.

Lemma md5_Sum_length (msg : bytes) : length (md5.Sum msg) = 16%nat.
Proof.
  unfold md5.Sum.
  destruct (foldl md5.block md5.init _) as [a b c d].
  rewrite length_map, !length_app. unfold md5.le_bytes.
  by rewrite !length_map, !length_seq.
Qed.

Lemma sha256_round_length (w h : list Z) (t : Z) :
  length (sha256.round w h t) = length h.
Proof.
  unfold sha256.round.
  by do 9 (destruct h as [|? h]; [done|]).
Qed.

Lemma sha256_block_length (h blk : list Z) :
  length (sha256.block h blk) = length h.
Proof.
  unfold sha256.block. rewrite length_zip_with.
  assert (Hfold : forall ts h0,
            length (foldl (sha256.round (sha256.schedule blk)) h0 ts)
            = length h0).
  { induction ts as [|t ts IH]; intros h0; [done|].
    cbn [foldl]. by rewrite IH, sha256_round_length. }
  rewrite Hfold. lia.
Qed.

Lemma sha256_Sum_length (msg : bytes) : length (sha256.Sum msg) = 32%nat.
Proof.
  unfold sha256.Sum. rewrite length_map.
  assert (Hfold : forall blks h,
            length (foldl sha256.block h blks) = length h).
  { induction blks as [|blk blks IH]; intros h; [done|].
    cbn [foldl]. by rewrite IH, sha256_block_length. }
  assert (Hconcat : forall h : list Z,
            length (concat (map (sha256.be_bytes 4) h)) = (4 * length h)%nat).
  { induction h as [|x h IH]; [done|].
    cbn [map concat]. rewrite length_app, IH.
    unfold sha256.be_bytes. rewrite length_map, length_seq. cbn [length]. lia. }
  by rewrite Hconcat, Hfold.
Qed.

Section DigestWidth.
Context `{Collaborators}.

(** X10. Whatever the payload, the [Content-MD5] header of a request built
    by [newPutObjectReq] has 24 characters (the base64 form of a digest of
    16 bytes) and its [X-Amz-Content-Sha256] header has 64 characters (the
    hex form of a digest of 32 bytes). *)
Theorem newPutObjectReq_digest_widths
    (b o : string) (P : bytes) (req : Request) :
  newPutObjectReq b o P = (req, None) ->
  String.length (http.Get "Content-MD5" (customHeader req)) = 24%nat /\
  String.length (http.Get "X-Amz-Content-Sha256" (customHeader req)) = 64%nat.
Proof.
  rewrite newPutObjectReq_eq. intros [= <-]. cbn [customHeader putRequest].
  split.
  - rewrite !Get_Set_other by (vm_compute; discriminate).
    by rewrite Get_Set_same, base64_EncodeToString_length, md5_Sum_length.
  - rewrite Get_Set_other by (vm_compute; discriminate).
    by rewrite Get_Set_same, hex_EncodeToString_length, sha256_Sum_length.
Qed.

End DigestWidth.

Lemma verifyBodyPutObject_result_inj_witness :
  snd (verifyBodyPutObject
         (Some (Body.mk (bytes_of_string "oops") None 0)))
  = snd (verifyBodyPutObject
           (Some (Reader.mk (bytes_of_string "oops") 0)))
  <-> bytes_of_string "oops" = bytes_of_string "oops".
Proof.
  apply (verifyBodyPutObject_result_inj
           (Body.mk (bytes_of_string "oops") None 0)
           (Body.mk [] None 1)
           (Reader.mk (bytes_of_string "oops") 0)
           (Reader.mk (bytes_of_string "oops") 4));
    reflexivity.
Defined.

Lemma newPutObjectReq_digest_widths_witness :
  let req := fst (@newPutObjectReq Stub.collaborators "b1" "k1"
                    (bytes_of_string "hello")) in
  String.length (http.Get "Content-MD5" (customHeader req)) = 24%nat /\
  String.length (http.Get "X-Amz-Content-Sha256" (customHeader req)) = 64%nat.
Proof.
  intros req.
  apply (@newPutObjectReq_digest_widths Stub.collaborators "b1" "k1"
           (bytes_of_string "hello") req).
  vm_compute. reflexivity.
Defined.
